(** * The confetti particle engine of [src/scripts/confetti.js]

    A shallow embedding of the module: its configuration object, the
    [Particle] class, the module-level variables ([canvas], [ctx],
    [particles], [animationId], [isAnimating]) and the exported functions,
    run against an explicit model of the browser services they call
    (the page, [requestAnimationFrame], [setTimeout], [matchMedia],
    [Math.random], the console).

    JavaScript numbers are IEEE binary64 values: they are Rocq's primitive
    floats, whose operations are the ones the code executes.  The launch
    expressions of the constructor are written once over the arithmetic
    they use, so that they can also be read over the real numbers.

    Conventions.  A variable or property holding [undefined] or [null] is
    [None]: the module only tests such values for truthiness.  The [canvas]
    variable holds the state of the element it refers to; [initConfetti]
    resets all of it but what [getContext] answers, so nothing is lost by
    not sharing it with the page.  A function returns an [Outcome]: the
    state it returned with, a thrown error, or [OutOfFuel] for the one loop
    of the module, which is given fuel. *)

From Stdlib Require Import Floats Uint63 List String Bool Arith ZArith Lia.
From Stdlib Require Import Reals Lra DecimalString.
Import ListNotations.

Set Warnings "-inexact-float".
Local Open Scope float_scope.

(** ** Numbers *)

(** The arithmetic the launch expressions of the constructor use.  [lit] is
    a positive integer literal of the source text. *)
Class Num (num : Type) : Type := {
  add : num -> num -> num;
  sub : num -> num -> num;
  mul : num -> num -> num;
  div : num -> num -> num;
  opp : num -> num;
  lit : positive -> num;
  Math_PI : num
}.

(** [Math.sin] and [Math.cos].  ECMAScript leaves both
    implementation-approximated, so at binary64 they are supplied by the
    host. *)
Class Trig (num : Type) : Type := {
  Math_sin : num -> num;
  Math_cos : num -> num
}.

(** Binary64: the code as it runs. *)
#[export] Instance float_num : Num float := {|
  add := PrimFloat.add;
  sub := PrimFloat.sub;
  mul := PrimFloat.mul;
  div := PrimFloat.div;
  opp := PrimFloat.opp;
  lit := fun p => PrimFloat.of_uint63 (Uint63.of_pos p);
  Math_PI := 0x1.921fb54442d18p+1
|}.



(** [{ min: ..., max: ... }] *)
Module Range.
Record t (num : Type) : Type := make { min : num; max : num }.
Arguments make {num} _ _.
Arguments min {num} _.
Arguments max {num} _.
End Range.

Section Launch.
Context {num : Type} `{Num num}.

(** [initialVelocityRange: { min: -15, max: -5 }] (line 15). *)
Definition default_initialVelocityRange : Range.t num :=
  Range.make (opp (lit 15)) (opp (lit 5)).

(** [angleRange: { min: -Math.PI / 4, max: -Math.PI * 3 / 4 }] (line 16). *)
Definition default_angleRange : Range.t num :=
  Range.make (div (opp Math_PI) (lit 4))
             (div (mul (opp Math_PI) (lit 3)) (lit 4)).

(** [Math.random() * (r.max - r.min) + r.min], [u] being the value
    [Math.random()] returned (lines 37 and 38). *)
Definition sample (u : num) (r : Range.t num) : num :=
  add (mul u (sub (Range.max r) (Range.min r))) (Range.min r).

Context `{Trig num}.

(** [this.vx = Math.cos(angle) * velocity] (line 39). *)
Definition launch_vx (angle velocity : num) : num :=
  mul (Math_cos angle) velocity.

(** [this.vy = Math.sin(angle) * velocity] (line 40). *)
Definition launch_vy (angle velocity : num) : num :=
  mul (Math_sin angle) velocity.
End Launch.

(** ** JavaScript helpers *)

(** Truthiness of a number: false for [+0], [-0] and NaN. *)
Definition truthy_number (v : float) : bool :=
  negb (PrimFloat.is_zero v || PrimFloat.is_nan v).

(** [v || d] for a numeric property [v] that may be absent. *)
Definition js_or (v : option float) (d : float) : float :=
  match v with
  | Some n => if truthy_number n then n else d
  | None => d
  end.

(** Truthiness of [isAnimating] ([undefined], [true] or [false]). *)
Definition truthy_bool (v : option bool) : bool :=
  match v with Some true => true | _ => false end.

(** Truthiness of [animationId] ([undefined], [null] or a number handle). *)
Definition truthy_id (v : option Z) : bool :=
  match v with Some id => negb (Z.eqb id 0) | None => false end.

(** [Math.max(a, b)] on numbers: NaN if either is NaN, and [+0] above [-0]. *)
Definition Math_max (a b : float) : float :=
  if PrimFloat.is_nan a || PrimFloat.is_nan b then nan
  else if a <? b then b
  else if b <? a then a
  else if PrimFloat.get_sign a then b else a.

(** [l[Math.floor(v)]]: the element whose index [k] has [k <= v < k + 1],
    [undefined] when there is none.  [k] is the index of the head of [l]. *)
Fixpoint at_floor {A : Type} (l : list A) (k : float) (v : float) : option A :=
  match l with
  | [] => None
  | a :: rest => if (k <=? v) && (v <? k + 1) then Some a else at_floor rest (k + 1) v
  end.

(** [l.length] as a number. *)
Definition length_number {A : Type} (l : list A) : float :=
  PrimFloat.of_uint63 (Uint63.of_Z (Z.of_nat (List.length l))).

(** ** Configuration (lines 8-17) *)

Record Config : Type := {
  particleCount : float;
  duration : float;
  colors : list string;
  shapes : list string;
  gravity : float;
  windResistance : float;
  initialVelocityRange : Range.t float;
  angleRange : Range.t float
}.

Definition default_CONFIG : Config := {|
  particleCount := 150;
  duration := 4000;
  colors := ["#d4a574"; "#e8d4b8"; "#1e3a5f"; "#4caf50"; "#2196f3"]%string;
  shapes := ["circle"; "square"]%string;
  gravity := 0.5;
  windResistance := 0.98;
  initialVelocityRange := default_initialVelocityRange;
  angleRange := default_angleRange
|}.

(** The argument of [updateConfig]: [None] is a key the object does not
    have. *)
Record PartialConfig : Type := {
  new_particleCount : option float;
  new_duration : option float;
  new_colors : option (list string);
  new_shapes : option (list string);
  new_gravity : option float;
  new_windResistance : option float;
  new_initialVelocityRange : option (Range.t float);
  new_angleRange : option (Range.t float)
}.

Definition no_change : PartialConfig :=
  {| new_particleCount := None; new_duration := None; new_colors := None;
     new_shapes := None; new_gravity := None; new_windResistance := None;
     new_initialVelocityRange := None; new_angleRange := None |}.

Definition assign {A : Type} (old : A) (new : option A) : A :=
  match new with Some v => v | None => old end.

(** [Object.assign(CONFIG, newConfig)] *)
Definition Object_assign (c : Config) (n : PartialConfig) : Config := {|
  particleCount := assign (particleCount c) (new_particleCount n);
  duration := assign (duration c) (new_duration n);
  colors := assign (colors c) (new_colors n);
  shapes := assign (shapes c) (new_shapes n);
  gravity := assign (gravity c) (new_gravity n);
  windResistance := assign (windResistance c) (new_windResistance n);
  initialVelocityRange := assign (initialVelocityRange c) (new_initialVelocityRange n);
  angleRange := assign (angleRange c) (new_angleRange n)
|}.

(** ** Particles (lines 24-103) *)

Record Particle : Type := {
  x : float;
  y : float;
  size : float;
  color : option string;
  shape : option string;
  vx : float;
  vy : float;
  rotation : float;
  rotationSpeed : float;
  opacity : float;
  life : float
}.

(** The seven values [Math.random()] returns to one constructor call, in
    the order the constructor asks for them. *)
Record Samples : Type := {
  u_size : float;
  u_color : float;
  u_shape : float;
  u_angle : float;
  u_velocity : float;
  u_rotation : float;
  u_rotationSpeed : float
}.

Section Constructor.
Context `{Trig float}.

(** [new Particle(x, y)] (lines 29-49). *)
Definition new_Particle (CONFIG : Config) (u : Samples) (x0 y0 : float) : Particle :=
  let angle := sample (u_angle u) (angleRange CONFIG) in
  let velocity := sample (u_velocity u) (initialVelocityRange CONFIG) in
  {| x := x0;
     y := y0;
     size := u_size u * 8 + 4;
     color := at_floor (colors CONFIG) 0 (u_color u * length_number (colors CONFIG));
     shape := at_floor (shapes CONFIG) 0 (u_shape u * length_number (shapes CONFIG));
     vx := launch_vx angle velocity;
     vy := launch_vy angle velocity;
     rotation := u_rotation u * Math_PI * 2;
     rotationSpeed := (u_rotationSpeed u - 0.5) * 0.2;
     opacity := 1;
     life := 1 |}.
End Constructor.

Definition set_x (v : float) (p : Particle) : Particle :=
  {| x := v; y := y p; size := size p; color := color p; shape := shape p;
     vx := vx p; vy := vy p; rotation := rotation p;
     rotationSpeed := rotationSpeed p; opacity := opacity p; life := life p |}.
Definition set_y (v : float) (p : Particle) : Particle :=
  {| x := x p; y := v; size := size p; color := color p; shape := shape p;
     vx := vx p; vy := vy p; rotation := rotation p;
     rotationSpeed := rotationSpeed p; opacity := opacity p; life := life p |}.
Definition set_vx (v : float) (p : Particle) : Particle :=
  {| x := x p; y := y p; size := size p; color := color p; shape := shape p;
     vx := v; vy := vy p; rotation := rotation p;
     rotationSpeed := rotationSpeed p; opacity := opacity p; life := life p |}.
Definition set_vy (v : float) (p : Particle) : Particle :=
  {| x := x p; y := y p; size := size p; color := color p; shape := shape p;
     vx := vx p; vy := v; rotation := rotation p;
     rotationSpeed := rotationSpeed p; opacity := opacity p; life := life p |}.
Definition set_rotation (v : float) (p : Particle) : Particle :=
  {| x := x p; y := y p; size := size p; color := color p; shape := shape p;
     vx := vx p; vy := vy p; rotation := v;
     rotationSpeed := rotationSpeed p; opacity := opacity p; life := life p |}.
Definition set_opacity (v : float) (p : Particle) : Particle :=
  {| x := x p; y := y p; size := size p; color := color p; shape := shape p;
     vx := vx p; vy := vy p; rotation := rotation p;
     rotationSpeed := rotationSpeed p; opacity := v; life := life p |}.
Definition set_life (v : float) (p : Particle) : Particle :=
  {| x := x p; y := y p; size := size p; color := color p; shape := shape p;
     vx := vx p; vy := vy p; rotation := rotation p;
     rotationSpeed := rotationSpeed p; opacity := opacity p; life := v |}.

(** [update()] (lines 54-72), one assignment per line of the source. *)
Definition update (CONFIG : Config) (p : Particle) : Particle :=
  let p := set_vy (vy p + gravity CONFIG) p in
  let p := set_vx (vx p * windResistance CONFIG) p in
  let p := set_vy (vy p * windResistance CONFIG) p in
  let p := set_x (x p + vx p) p in
  let p := set_y (y p + vy p) p in
  let p := set_rotation (rotation p + rotationSpeed p) p in
  let p := set_life (life p - 0.01) p in
  set_opacity (Math_max 0 (life p)) p.

(** ** The drawing surface *)

(** What one [draw] call leaves on the canvas: the transform and style in
    force when the figure was filled. *)
Inductive Figure : Type :=
| Disk (radius : float)                 (* arc(0, 0, radius, 0, 2 pi); fill() *)
| Square (corner side : float).         (* fillRect(corner, corner, side, side) *)

Record Paint : Type := {
  globalAlpha : float;
  translate : float * float;
  rotate : float;
  fillStyle : option string;
  figure : Figure
}.

(** The 2D context [getContext('2d')] hands out. *)
Inductive Context : Type := CanvasRenderingContext2D.

(** The canvas element: its size, what has been painted on it since it was
    last cleared, and what [getContext('2d')] answers ([null] is [None]). *)
Record Canvas : Type := {
  width : float;
  height : float;
  painted : list Paint;
  getContext : option Context
}.

(** [ctx.clearRect(0, 0, canvas.width, canvas.height)] *)
Definition clearRect (c : Canvas) : Canvas :=
  {| width := width c; height := height c; painted := [];
     getContext := getContext c |}.

(** [draw(context)] (lines 78-94). *)
Definition draw (p : Particle) (c : Canvas) : Canvas :=
  {| width := width c; height := height c;
     painted := painted c ++
       [ {| globalAlpha := opacity p;
            translate := (x p, y p);
            rotate := rotation p;
            fillStyle := color p;
            figure := match shape p with
                      | Some "circle"%string => Disk (size p / 2)
                      | _ => Square (- size p / 2) (size p)
                      end |} ];
     getContext := getContext c |}.

(** [isAlive()] (lines 100-102). *)
Definition isAlive (c : Canvas) (p : Particle) : bool :=
  (0 <? life p) && (y p <? height c + 50).

(** ** The host *)

Inductive Message : Type :=
| console_warn (text : string)
| console_log (text : string).

(** The callback handed to [setTimeout] (lines 211-215); the module has
    only this one. *)
Inductive Callback : Type := auto_stop.

Record Timeout : Type := { callback : Callback; delay : float }.

Record Host : Type := {
  (** [document.getElementById('confetti-canvas')] *)
  document_canvas : option Canvas;
  innerWidth : float;
  innerHeight : float;
  (** [window.matchMedia('(prefers-reduced-motion: reduce)').matches] *)
  prefers_reduced_motion : bool;
  (** handles of the frame requests not yet run or cancelled; the callback
      of each is [animate] *)
  frame_requests : list Z;
  next_handle : Z;
  (** timers set and not yet fired *)
  timeouts : list Timeout;
  console : list Message;
  (** [Math.random]: the [n]-th value it returns, and how many it has
      returned *)
  random : nat -> float;
  drawn : nat;
  trig : Trig float;
  (** whether [resizeCanvas] listens to [resize] *)
  resize_listener : bool
}.

(** ** The module's variables (line 19) and [CONFIG] *)

Record State : Type := {
  canvas : option Canvas;
  ctx : option Context;
  particles : option (list Particle);
  animationId : option Z;
  isAnimating : option bool;
  CONFIG : Config;
  host : Host
}.

Definition set_canvas (v : option Canvas) (s : State) : State :=
  {| canvas := v; ctx := ctx s; particles := particles s;
     animationId := animationId s; isAnimating := isAnimating s;
     CONFIG := CONFIG s; host := host s |}.
Definition set_ctx (v : option Context) (s : State) : State :=
  {| canvas := canvas s; ctx := v; particles := particles s;
     animationId := animationId s; isAnimating := isAnimating s;
     CONFIG := CONFIG s; host := host s |}.
Definition set_particles (v : option (list Particle)) (s : State) : State :=
  {| canvas := canvas s; ctx := ctx s; particles := v;
     animationId := animationId s; isAnimating := isAnimating s;
     CONFIG := CONFIG s; host := host s |}.
Definition set_animationId (v : option Z) (s : State) : State :=
  {| canvas := canvas s; ctx := ctx s; particles := particles s;
     animationId := v; isAnimating := isAnimating s;
     CONFIG := CONFIG s; host := host s |}.
Definition set_isAnimating (v : option bool) (s : State) : State :=
  {| canvas := canvas s; ctx := ctx s; particles := particles s;
     animationId := animationId s; isAnimating := v;
     CONFIG := CONFIG s; host := host s |}.
Definition set_CONFIG (v : Config) (s : State) : State :=
  {| canvas := canvas s; ctx := ctx s; particles := particles s;
     animationId := animationId s; isAnimating := isAnimating s;
     CONFIG := v; host := host s |}.
Definition set_host (v : Host) (s : State) : State :=
  {| canvas := canvas s; ctx := ctx s; particles := particles s;
     animationId := animationId s; isAnimating := isAnimating s;
     CONFIG := CONFIG s; host := v |}.

(** What the module's calls do to the host. *)
Definition say (m : Message) (h : Host) : Host :=
  {| document_canvas := document_canvas h; innerWidth := innerWidth h;
     innerHeight := innerHeight h;
     prefers_reduced_motion := prefers_reduced_motion h;
     frame_requests := frame_requests h; next_handle := next_handle h;
     timeouts := timeouts h; console := console h ++ [m];
     random := random h; drawn := drawn h; trig := trig h;
     resize_listener := resize_listener h |}.

Definition set_frame_requests (l : list Z) (next : Z) (h : Host) : Host :=
  {| document_canvas := document_canvas h; innerWidth := innerWidth h;
     innerHeight := innerHeight h;
     prefers_reduced_motion := prefers_reduced_motion h;
     frame_requests := l; next_handle := next;
     timeouts := timeouts h; console := console h;
     random := random h; drawn := drawn h; trig := trig h;
     resize_listener := resize_listener h |}.

Definition set_timeouts (l : list Timeout) (h : Host) : Host :=
  {| document_canvas := document_canvas h; innerWidth := innerWidth h;
     innerHeight := innerHeight h;
     prefers_reduced_motion := prefers_reduced_motion h;
     frame_requests := frame_requests h; next_handle := next_handle h;
     timeouts := l; console := console h;
     random := random h; drawn := drawn h; trig := trig h;
     resize_listener := resize_listener h |}.

Definition set_drawn (n : nat) (h : Host) : Host :=
  {| document_canvas := document_canvas h; innerWidth := innerWidth h;
     innerHeight := innerHeight h;
     prefers_reduced_motion := prefers_reduced_motion h;
     frame_requests := frame_requests h; next_handle := next_handle h;
     timeouts := timeouts h; console := console h;
     random := random h; drawn := n; trig := trig h;
     resize_listener := resize_listener h |}.

Definition set_resize_listener (b : bool) (h : Host) : Host :=
  {| document_canvas := document_canvas h; innerWidth := innerWidth h;
     innerHeight := innerHeight h;
     prefers_reduced_motion := prefers_reduced_motion h;
     frame_requests := frame_requests h; next_handle := next_handle h;
     timeouts := timeouts h; console := console h;
     random := random h; drawn := drawn h; trig := trig h;
     resize_listener := b |}.

(** [requestAnimationFrame(animate)]: the handle returned and the host
    with the request pending. *)
Definition requestAnimationFrame (h : Host) : Z * Host :=
  (next_handle h,
   set_frame_requests (frame_requests h ++ [next_handle h]) (next_handle h + 1) h).

(** [cancelAnimationFrame(id)] *)
Definition cancelAnimationFrame (id : Z) (h : Host) : Host :=
  set_frame_requests (remove Z.eq_dec id (frame_requests h)) (next_handle h) h.

(** [setTimeout(f, ms)] *)
Definition setTimeout (f : Callback) (ms : float) (h : Host) : Host :=
  set_timeouts (timeouts h ++ [ {| callback := f; delay := ms |} ]) h.

(** The seven [Math.random()] calls of one constructor. *)
Definition Math_random7 (h : Host) : Samples * Host :=
  let n := drawn h in
  ({| u_size := random h n;
      u_color := random h (n + 1);
      u_shape := random h (n + 2);
      u_angle := random h (n + 3);
      u_velocity := random h (n + 4);
      u_rotation := random h (n + 5);
      u_rotationSpeed := random h (n + 6) |},
   set_drawn (n + 7) h).

(** ** Results of a call: it returns, throws, or is still running when the
    fuel given to its loop is used up. *)

Inductive Outcome (A : Type) : Type :=
| Returned (a : A)
| Thrown (error : string)
| OutOfFuel.
Arguments Returned {A} _.
Arguments Thrown {A} _.
Arguments OutOfFuel {A}.

Definition bind {A B : Type} (m : Outcome A) (k : A -> Outcome B) : Outcome B :=
  match m with
  | Returned a => k a
  | Thrown e => Thrown e
  | OutOfFuel => OutOfFuel
  end.

Notation "'let*' a := m 'in' k" := (bind m (fun a => k))
  (at level 10, a name, m at level 100, k at level 200).

(** ** The module's functions *)

(** [resizeCanvas()] (lines 130-135).  Setting the size of a canvas also
    clears it. *)
Definition resizeCanvas (s : State) : State :=
  match canvas s with
  | None => s
  | Some c =>
      set_canvas (Some {| width := innerWidth (host s);
                          height := innerHeight (host s);
                          painted := [];
                          getContext := getContext c |}) s
  end.

(** [initConfetti()] (lines 108-125). *)
Definition initConfetti (s : State) : Outcome State :=
  let s := set_canvas (document_canvas (host s)) s in
  match canvas s with
  | None =>
      Returned (set_host (say (console_warn "Confetti canvas not found") (host s)) s)
  | Some c =>
      let s := set_ctx (getContext c) s in
      let s := set_particles (Some []) s in
      let s := set_isAnimating (Some false) s in
      let s := resizeCanvas s in
      Returned (set_host (set_resize_listener true (host s)) s)
  end.

(** [particles.push(new Particle(x, y))] (line 145): the body of the loop
    of [createParticles]. *)
Definition push_new_Particle (x0 y0 : float) (s : State) : Outcome State :=
  match particles s with
  | None => Thrown "TypeError"
  | Some ps =>
      let (u, h) := Math_random7 (host s) in
      let p := new_Particle (H := trig (host s)) (CONFIG s) u x0 y0 in
      Returned (set_host h (set_particles (Some (ps ++ [p])) s))
  end.

(** [for (let i = ...; i < count; i++) { ... }] (lines 144-146), from the
    current value of [i]. *)
Fixpoint createParticles_from (fuel : nat) (i x0 y0 count : float) (s : State)
  : Outcome State :=
  if i <? count then
    match fuel with
    | O => OutOfFuel
    | S fuel' =>
        let* s1 := push_new_Particle x0 y0 s in
        createParticles_from fuel' (i + 1) x0 y0 count s1
    end
  else Returned s.

(** [createParticles(x, y, count)] (lines 143-147). *)
Definition createParticles (fuel : nat) (x0 y0 count : float) (s : State)
  : Outcome State :=
  createParticles_from fuel 0 x0 y0 count s.

(** The callback of [particles.filter] (lines 159-168), run over the array
    from its head: the particles kept and the canvas after their [draw]s. *)
Fixpoint filter_particles (cfg : Config) (c : Canvas) (ps : list Particle)
  : list Particle * Canvas :=
  match ps with
  | [] => ([], c)
  | p :: rest =>
      let p' := update cfg p in
      if isAlive c p' then
        let (kept, c') := filter_particles cfg (draw p' c) rest in
        (p' :: kept, c')
      else filter_particles cfg c rest
  end.

(** [animate()] (lines 152-176). *)
Definition animate (s : State) : Outcome State :=
  match ctx s, canvas s with
  | Some _, Some c =>
      let c := clearRect c in
      match particles s with
      | None => Thrown "TypeError"
      | Some ps =>
          let (kept, c) := filter_particles (CONFIG s) c ps in
          let s := set_particles (Some kept) (set_canvas (Some c) s) in
          match kept with
          | _ :: _ =>
              let (id, h) := requestAnimationFrame (host s) in
              Returned (set_animationId (Some id) (set_host h s))
          | [] => Returned (set_isAnimating (Some false) s)
          end
      end
  | _, _ => Returned s
  end.

(** The [options] argument of [triggerConfetti]: [None] is a property the
    object does not have. *)
Module Options.
Record t : Type := make { x : option float; y : option float; count : option float }.
Definition empty : t := make None None None.
End Options.

(** [stopConfetti()] (lines 221-234). *)
Definition stopConfetti (s : State) : Outcome State :=
  let s :=
    match animationId s with
    | Some id =>
        if truthy_id (Some id)
        then set_animationId None (set_host (cancelAnimationFrame id (host s)) s)
        else s
    | None => s
    end in
  let s := set_particles (Some []) s in
  let s := set_isAnimating (Some false) s in
  match ctx s, canvas s with
  | Some _, Some c => Returned (set_canvas (Some (clearRect c)) s)
  | _, _ => Returned s
  end.

(** The timer callback [() => { if (isAnimating) stopConfetti(); }]
    (lines 211-215). *)
Definition run_callback (f : Callback) (s : State) : Outcome State :=
  match f with
  | auto_stop => if truthy_bool (isAnimating s) then stopConfetti s else Returned s
  end.

(** [triggerConfetti(options = {})] (lines 185-216). *)
Definition triggerConfetti (fuel : nat) (options : Options.t) (s : State)
  : Outcome State :=
  match canvas s, ctx s with
  | Some c, Some _ =>
      if prefers_reduced_motion (host s) then
        Returned (set_host (say (console_log "Confetti disabled due to reduced motion preference") (host s)) s)
      else
        let x0 := js_or (Options.x options) (width c / 2) in
        let y0 := js_or (Options.y options) 40 in
        let count := js_or (Options.count options) (particleCount (CONFIG s)) in
        let* s := createParticles fuel x0 y0 count s in
        let* s :=
          if negb (truthy_bool (isAnimating s))
          then animate (set_isAnimating (Some true) s)
          else Returned s in
        Returned (set_host (setTimeout auto_stop (duration (CONFIG s)) (host s)) s)
  | _, _ =>
      Returned (set_host (say (console_warn "Confetti not initialized") (host s)) s)
  end.

(** [updateConfig(newConfig)] (lines 240-242). *)
Definition updateConfig (newConfig : PartialConfig) (s : State) : Outcome State :=
  Returned (set_CONFIG (Object_assign (CONFIG s) newConfig) s).

(** ** The host's turns *)

(** The browser runs the frame request [id]: it is no longer pending, and
    its callback [animate] is called. *)
Definition run_frame (id : Z) (s : State) : Outcome State :=
  if in_dec Z.eq_dec id (frame_requests (host s))
  then animate (set_host (cancelAnimationFrame id (host s)) s)
  else Returned s.

(** The browser fires the [n]-th pending timer: it is removed, and its
    callback is called. *)
Definition run_timeout (n : nat) (s : State) : Outcome State :=
  match nth_error (timeouts (host s)) n with
  | Some t =>
      let pending := firstn n (timeouts (host s)) ++ skipn (S n) (timeouts (host s)) in
      run_callback (callback t) (set_host (set_timeouts pending (host s)) s)
  | None => Returned s
  end.

(** The module as loaded: no variable of line 19 assigned yet. *)
Definition loaded (h : Host) : State :=
  {| canvas := None; ctx := None; particles := None; animationId := None;
     isAnimating := None; CONFIG := default_CONFIG; host := h |}.

(** ** Derived notions used by the statements *)

(** The five phases of [update], named after the comments of the source
    (lines 55, 58, 62, 66 and 69). *)
Definition apply_gravity (cfg : Config) (p : Particle) : Particle :=
  set_vy (vy p + gravity cfg) p.
Definition apply_wind_resistance (cfg : Config) (p : Particle) : Particle :=
  let p := set_vx (vx p * windResistance cfg) p in
  set_vy (vy p * windResistance cfg) p.
Definition update_position (p : Particle) : Particle :=
  let p := set_x (x p + vx p) p in
  set_y (y p + vy p) p.
Definition update_rotation (p : Particle) : Particle :=
  set_rotation (rotation p + rotationSpeed p) p.
Definition fade_out (p : Particle) : Particle :=
  let p := set_life (life p - 0.01) p in
  set_opacity (Math_max 0 (life p)) p.

(** [n] successive calls of [update] on one particle. *)
Definition updates (cfg : Config) (n : nat) (p : Particle) : Particle :=
  Nat.iter n (update cfg) p.

(** [life] after [n] decrements, starting from [l]. *)
Definition decayed (n : nat) (l : float) : float :=
  Nat.iter n (fun l => l - 0.01) l.

(** What [draw] paints for a particle. *)
Definition paint_of (p : Particle) : Paint :=
  {| globalAlpha := opacity p;
     translate := (x p, y p);
     rotate := rotation p;
     fillStyle := color p;
     figure := match shape p with
               | Some "circle"%string => Disk (size p / 2)
               | _ => Square (- size p / 2) (size p)
               end |}.

(** A particle as the constructor leaves it at the top centre of a
    3840 x 2160 page, launched straight down at speed 5. *)
Definition falling_particle : Particle :=
  {| x := 1920; y := 40; size := 8;
     color := Some "#4caf50"%string; shape := Some "circle"%string;
     vx := 0; vy := 5; rotation := 0; rotationSpeed := 0.05;
     opacity := 1; life := 1 |}.

Definition page_3840_2160 : Canvas :=
  {| width := 3840; height := 2160; painted := [];
     getContext := Some CanvasRenderingContext2D |}.

(** The trips the loop of [createParticles] makes from [i] within [fuel];
    [None] when [fuel] does not see the end of the loop. *)
Fixpoint loop_trips (fuel : nat) (i count : float) : option nat :=
  if i <? count then
    match fuel with
    | O => None
    | S fuel' => option_map S (loop_trips fuel' (i + 1) count)
    end
  else Some O.

(** [n] constructor calls in a row: the particles, and the host after the
    [Math.random()] calls they made. *)
Fixpoint spawn (n : nat) (cfg : Config) (x0 y0 : float) (h : Host)
  : list Particle * Host :=
  match n with
  | O => ([], h)
  | S n' =>
      let (u, h1) := Math_random7 h in
      let p := new_Particle (H := trig h) cfg u x0 y0 in
      let (ps, h2) := spawn n' cfg x0 y0 h1 in
      (p :: ps, h2)
  end.

(** Every pending frame request is the one [animationId] records, and the
    engine is animating while it is pending; handles are positive. *)
Definition tracked (s : State) : Prop :=
  (0 < next_handle (host s))%Z
  /\ (frame_requests (host s) = []
      \/ exists id, (0 < id < next_handle (host s))%Z
           /\ frame_requests (host s) = [id]
           /\ animationId s = Some id
           /\ isAnimating s = Some true).

(** Several calls in a row, stopping at the first that does not return. *)
Fixpoint calls (fs : list (State -> Outcome State)) (s : State) : Outcome State :=
  match fs with
  | [] => Returned s
  | f :: rest => let* s1 := f s in calls rest s1
  end.

(** Two hosts to run the module on.  [Math.random] always answers 0.5, so
    that [Math.sin] and [Math.cos] are only asked at -pi/2, where they
    answer -1 and 6.123233995736766e-17. *)
Definition at_minus_half_pi : Trig float :=
  {| Math_sin := fun _ => -1; Math_cos := fun _ => 0x1.1a62633145c07p-54 |}.

Definition page_without_canvas : Host :=
  {| document_canvas := None; innerWidth := 800; innerHeight := 600;
     prefers_reduced_motion := false; frame_requests := []; next_handle := 1;
     timeouts := []; console := []; random := fun _ => 0.5; drawn := 0;
     trig := at_minus_half_pi; resize_listener := false |}.

Definition page_with_canvas : Host :=
  {| document_canvas :=
       Some {| width := 300; height := 150; painted := [];
               getContext := Some CanvasRenderingContext2D |};
     innerWidth := 800; innerHeight := 600;
     prefers_reduced_motion := false; frame_requests := []; next_handle := 1;
     timeouts := []; console := []; random := fun _ => 0.5; drawn := 0;
     trig := at_minus_half_pi; resize_listener := false |}.

Definition set_prefers_reduced_motion (b : bool) (h : Host) : Host :=
  {| document_canvas := document_canvas h; innerWidth := innerWidth h;
     innerHeight := innerHeight h;
     prefers_reduced_motion := b;
     frame_requests := frame_requests h; next_handle := next_handle h;
     timeouts := timeouts h; console := console h;
     random := random h; drawn := drawn h; trig := trig h;
     resize_listener := resize_listener h |}.

(** [updateConfig({ gravity: 0 })] *)
Definition gravity_0 : PartialConfig :=
  {| new_particleCount := None; new_duration := None; new_colors := None;
     new_shapes := None; new_gravity := Some 0; new_windResistance := None;
     new_initialVelocityRange := None; new_angleRange := None |}.

(** An engine in the middle of an animation on an 800 x 600 page: one
    particle in flight, the frame request 1 pending, one timer set. *)
Definition animating_page : Host :=
  {| document_canvas :=
       Some {| width := 800; height := 600; painted := [];
               getContext := Some CanvasRenderingContext2D |};
     innerWidth := 800; innerHeight := 600;
     prefers_reduced_motion := false; frame_requests := [1%Z]; next_handle := 2;
     timeouts := [ {| callback := auto_stop; delay := 4000 |} ];
     console := []; random := fun _ => 0.5; drawn := 7;
     trig := at_minus_half_pi; resize_listener := true |}.

Definition animating_engine : State :=
  {| canvas := Some {| width := 800; height := 600; painted := [];
                       getContext := Some CanvasRenderingContext2D |};
     ctx := Some CanvasRenderingContext2D;
     particles := Some [falling_particle];
     animationId := Some 1%Z;
     isAnimating := Some true;
     CONFIG := default_CONFIG;
     host := animating_page |}.

(** The state a call returned ([otherwise] if it did not return). *)
Definition returned (o : Outcome State) (otherwise : State) : State :=
  match o with Returned s => s | _ => otherwise end.

(** The engine after a successful [initConfetti()], idle. *)
Definition initialized_engine : State :=
  returned (initConfetti (loaded page_with_canvas)) (loaded page_with_canvas).

(** The same, on a host that reports the reduced-motion preference. *)
Definition reduced_motion_engine : State :=
  set_host (set_prefers_reduced_motion true (host initialized_engine))
           initialized_engine.

(** The engine after [triggerConfetti()] and then
    [triggerConfetti({ count: 3 })]: two bursts in flight, two timers set. *)
Definition two_bursts : State :=
  returned
    (calls [triggerConfetti 150 Options.empty;
            triggerConfetti 150 (Options.make None None (Some 3))]
           initialized_engine)
    initialized_engine.

(** The merge of one field: the value [newConfig] names, else the old one. *)
Definition merged {A : Type} (field : Config -> A) (named : option A)
           (before after : Config) : Prop :=
  match named with
  | Some v => field after = v
  | None => field after = field before
  end.

(** What can happen to the module after it was initialized: a call of one
    of its other exported functions, or the host running a frame request,
    firing a timer or delivering [resize]. *)
Inductive Turn : Type :=
| call_triggerConfetti (fuel : nat) (options : Options.t)
| call_stopConfetti
| call_updateConfig (newConfig : PartialConfig)
| frame (id : Z)
| timer (n : nat)
| resize.

Definition turn (t : Turn) (s : State) : Outcome State :=
  match t with
  | call_triggerConfetti fuel options => triggerConfetti fuel options s
  | call_stopConfetti => stopConfetti s
  | call_updateConfig newConfig => updateConfig newConfig s
  | frame id => run_frame id s
  | timer n => run_timeout n s
  | resize => Returned (if resize_listener (host s) then resizeCanvas s else s)
  end.

Fixpoint turns (ts : list Turn) (s : State) : Outcome State :=
  match ts with
  | [] => Returned s
  | t :: rest => let* s1 := turn t s in turns rest s1
  end.

(** ** The engine between two turns *)

(** A particle that has been through [k] updates since it was constructed,
    for some [k] from [m] to 99. *)
Definition aged (m : nat) (p : Particle) : Prop :=
  exists k, (m <= k <= 99)%nat /\ life p = decayed k 1.

(** The engine has its surface and its collection, every particle of the
    collection is [aged], and the collection is non-empty exactly when the
    engine is animating, which is exactly when a frame request is pending. *)
Definition ready (m : nat) (s : State) : Prop :=
  tracked s
  /\ exists c k ps,
       canvas s = Some c /\ ctx s = Some k /\ particles s = Some ps
       /\ Forall (aged m) ps
       /\ (ps <> [] -> isAnimating s = Some true)
       /\ (isAnimating s = Some true -> ps <> [])
       /\ (isAnimating s = Some true -> frame_requests (host s) <> []).

(** The browser runs the pending frame requests, one after the other, for
    at most [n] frames; nothing else happens meanwhile. *)
Fixpoint play (n : nat) (s : State) : Outcome State :=
  match n with
  | O => Returned s
  | S n' =>
      match frame_requests (host s) with
      | [] => Returned s
      | id :: _ => let* s1 := run_frame id s in play n' s1
      end
  end.

(** An integer count as a number. *)
Definition count_number (n : nat) : float :=
  PrimFloat.of_uint63 (Uint63.of_Z (Z.of_nat n)).

(** A page that has the canvas, whose [getContext('2d')] answers, and on
    which nothing is pending yet. *)
Definition fresh_page (h : Host) : Prop :=
  (exists c k, document_canvas h = Some c /\ getContext c = Some k)
  /\ frame_requests h = []
  /\ (0 < next_handle h)%Z.

(** [s] is a state the module reaches on the page [h]: it is loaded,
    [initConfetti()] is called, and then the turns [ts] happen, each
    returning. *)
Definition reached (h : Host) (ts : list Turn) (s : State) : Prop :=
  fresh_page h
  /\ exists s0, initConfetti (loaded h) = Returned s0 /\ turns ts s0 = Returned s.

(** * The slideshow (second module of [src/scripts/game.js], lines 378-541)

    The module keeps the index [current] of the slide on show and four
    elements of the page.  An element is held by what the module reads and
    writes of it.  Listeners are counted on the host, so that registering
    one twice runs it twice. *)
Module Slideshow.

Local Open Scope string_scope.
Local Open Scope Z_scope.

Record Slide : Type := { image : string; year : string; caption : string }.

(** [SLIDES] (lines 384-410). *)
Definition SLIDES : list Slide :=
  [ {| image := "assets/images/1.png"; year := "anjay";
       caption := "mff paparazzi" |};
    {| image := "assets/images/2.png"; year := "canon event";
       caption := "im actually from UK btw" |};
    {| image := "assets/images/3.png"; year := "new record";
       caption := "rare moment dawg make it past 1 AM" |};
    {| image := "assets/images/4.jpg"; year := "lol";
       caption := "another canon event, iykyk lmao" |};
    {| image := "assets/images/5.jpg"; year := "";
       caption := "Thanks for always accepting and stay connected with me as a whole kyl, you add pretty much color to my life." |} ].

(** [SLIDES.length] *)
Definition SLIDES_length : Z := Z.of_nat (List.length SLIDES).

(** A non-negative integer in a template string. *)
Definition String_of_nat (n : nat) : string :=
  NilZero.string_of_uint (Nat.to_uint n).

(** Truthiness of a string. *)
Definition truthy_string (s : string) : bool :=
  negb (String.eqb s "").

(** [classList.contains], [classList.add], [classList.remove]. *)
Definition contains (token : string) (classList : list string) : bool :=
  existsb (String.eqb token) classList.
Definition classList_add (token : string) (classList : list string) : list string :=
  if contains token classList then classList else (classList ++ [token])%list.
Definition classList_remove (token : string) (classList : list string) : list string :=
  filter (fun t => negb (String.eqb t token)) classList.

(** [setAttribute(name, value)] on the attributes of an element. *)
Fixpoint setAttribute (name value : string) (attributes : list (string * string))
  : list (string * string) :=
  match attributes with
  | [] => [(name, value)]
  | (n, v) :: rest =>
      if String.eqb n name then (n, value) :: rest
      else (n, v) :: setAttribute name value rest
  end.

Fixpoint getAttribute (name : string) (attributes : list (string * string))
  : option string :=
  match attributes with
  | [] => None
  | (n, v) :: rest => if String.eqb n name then Some v else getAttribute name rest
  end.

(** The [img.slide-image] of a slide. *)
Record Img : Type := { src : string; alt : string }.

(** A [div.slide] as [renderSlides] builds it: its class list and
    attributes, its image if any, and the texts of the [div.slide-year] and
    [div.slide-caption] inside its [div.slide-overlay > div.slide-content].
    None of these inner elements carries the class [slide]. *)
Record SlideEl : Type := {
  classList : list string;
  attributes : list (string * string);
  img : option Img;
  year_text : string;
  caption_text : string
}.

(** A [button.slide-indicator]: its class list and attributes, and the
    index its click listener passes to [goTo], if the module gave it one. *)
Record IndicatorEl : Type := {
  indicator_classList : list string;
  indicator_attributes : list (string * string);
  goes_to : option Z
}.

(** [#slideshow]: its children and its [tabindex]. *)
Record SlideshowEl : Type := {
  slides : list SlideEl;
  tabindex : option string
}.

(** [#prev-slide], [#next-slide]. *)
Record Button : Type := { disabled : bool }.

(** The four elements [getElementById] may find. *)
Record Page : Type := {
  page_slideshow : option SlideshowEl;
  page_indicators : option (list IndicatorEl);
  page_prev : option Button;
  page_next : option Button
}.

(** The module's variables (lines 412-413) and the host. *)
Record State : Type := {
  current : Z;
  slideshowEl : option SlideshowEl;
  indicatorsEl : option (list IndicatorEl);
  prevBtn : option Button;
  nextBtn : option Button;
  document : Page;
  prefers_reduced_motion : bool;
  (** listeners registered for [click] on the two buttons and for
      [keydown] on the slideshow *)
  prev_listeners : nat;
  next_listeners : nat;
  keydown_listeners : nat;
  (** delays of the intervals set *)
  intervals : list Z;
  console : list string
}.

Definition set_current (v : Z) (s : State) : State :=
  {| current := v; slideshowEl := slideshowEl s; indicatorsEl := indicatorsEl s;
     prevBtn := prevBtn s; nextBtn := nextBtn s; document := document s;
     prefers_reduced_motion := prefers_reduced_motion s;
     prev_listeners := prev_listeners s; next_listeners := next_listeners s;
     keydown_listeners := keydown_listeners s; intervals := intervals s;
     console := console s |}.

Definition set_elements (sl : option SlideshowEl) (ind : option (list IndicatorEl))
           (p n : option Button) (s : State) : State :=
  {| current := current s; slideshowEl := sl; indicatorsEl := ind;
     prevBtn := p; nextBtn := n; document := document s;
     prefers_reduced_motion := prefers_reduced_motion s;
     prev_listeners := prev_listeners s; next_listeners := next_listeners s;
     keydown_listeners := keydown_listeners s; intervals := intervals s;
     console := console s |}.

Definition set_host (pl nl kl : nat) (iv : list Z) (log : list string) (s : State)
  : State :=
  {| current := current s; slideshowEl := slideshowEl s;
     indicatorsEl := indicatorsEl s; prevBtn := prevBtn s; nextBtn := nextBtn s;
     document := document s;
     prefers_reduced_motion := prefers_reduced_motion s;
     prev_listeners := pl; next_listeners := nl;
     keydown_listeners := kl; intervals := iv; console := log |}.

(** The callback of [SLIDES.forEach] in [renderSlides] (lines 460-492). *)
Definition renderSlide (slide : Slide) (index : nat) : SlideEl :=
  {| classList := ["slide"];
     attributes :=
       setAttribute "aria-label"
         (String_of_nat (index + 1) ++ " of " ++ String_of_nat (List.length SLIDES))
         (setAttribute "aria-roledescription" "slide"
            (setAttribute "role" "group" []));
     img := if truthy_string (image slide)
            then Some {| src := image slide;
                         alt := if truthy_string (caption slide)
                                then caption slide
                                else "Memory from " ++ year slide |}
            else None;
     year_text := year slide;
     caption_text := caption slide |}.

(** The callback of [SLIDES.forEach] in [renderIndicators] (lines 500-505). *)
Definition renderIndicator (index : nat) : IndicatorEl :=
  {| indicator_classList := ["slide-indicator"];
     indicator_attributes :=
       setAttribute "aria-label" ("Go to slide " ++ String_of_nat (index + 1))
         (setAttribute "role" "tab" []);
     goes_to := Some (Z.of_nat index) |}.

(** [array.forEach((element, index) => ...)] building one value per
    element, from [index] on. *)
Fixpoint forEach {A B : Type} (f : A -> nat -> B) (index : nat) (l : list A)
  : list B :=
  match l with
  | [] => []
  | a :: rest => f a index :: forEach f (S index) rest
  end.

(** [container.querySelectorAll('.token').forEach((el, index) => ...)]
    where the callback changes [el]: the children that carry the class
    are changed, in document order. *)
Fixpoint forEach_of_class {A : Type} (classes : A -> list string) (token : string)
         (f : A -> nat -> A) (index : nat) (l : list A) : list A :=
  match l with
  | [] => []
  | a :: rest =>
      if contains token (classes a)
      then f a index :: forEach_of_class classes token f (S index) rest
      else a :: forEach_of_class classes token f index rest
  end.

(** [renderSlides()] (lines 455-494). *)
Definition renderSlides (s : State) : Outcome State :=
  match slideshowEl s with
  | None => Thrown "TypeError"
  | Some _ =>
      Returned
        (set_elements
           (Some {| slides := forEach renderSlide 0 SLIDES; tabindex := Some "0" |})
           (indicatorsEl s) (prevBtn s) (nextBtn s) s)
  end.

(** [renderIndicators()] (lines 496-507). *)
Definition renderIndicators (s : State) : Outcome State :=
  match indicatorsEl s with
  | None => Thrown "TypeError"
  | Some _ =>
      Returned
        (set_elements (slideshowEl s)
           (Some (forEach (fun _ => renderIndicator) 0 SLIDES))
           (prevBtn s) (nextBtn s) s)
  end.

(** The two callbacks of [updateUI] (lines 513-529). *)
Definition mark_slide (cur : Z) (el : SlideEl) (index : nat) : SlideEl :=
  {| classList := if Z.of_nat index =? cur
                  then classList_add "active" (classList el)
                  else classList_remove "active" (classList el);
     attributes := attributes el; img := img el;
     year_text := year_text el; caption_text := caption_text el |}.

Definition mark_indicator (cur : Z) (el : IndicatorEl) (index : nat) : IndicatorEl :=
  if Z.of_nat index =? cur
  then {| indicator_classList := classList_add "active" (indicator_classList el);
          indicator_attributes :=
            setAttribute "aria-selected" "true" (indicator_attributes el);
          goes_to := goes_to el |}
  else {| indicator_classList := classList_remove "active" (indicator_classList el);
          indicator_attributes :=
            setAttribute "aria-selected" "false" (indicator_attributes el);
          goes_to := goes_to el |}.

(** [updateUI()] (lines 509-533). *)
Definition updateUI (s : State) : Outcome State :=
  match slideshowEl s, indicatorsEl s, prevBtn s, nextBtn s with
  | Some sl, Some ind, Some _, Some _ =>
      Returned
        (set_elements
           (Some {| slides := forEach_of_class classList "slide"
                                (mark_slide (current s)) 0 (slides sl);
                    tabindex := tabindex sl |})
           (Some (forEach_of_class indicator_classList "slide-indicator"
                    (mark_indicator (current s)) 0 ind))
           (Some {| disabled := current s =? 0 |})
           (Some {| disabled := current s =? SLIDES_length - 1 |})
           s)
  | _, _, _, _ => Thrown "TypeError"
  end.

(** [goTo(index)] (lines 535-541). *)
Definition goTo (index : Z) (s : State) : Outcome State :=
  let index := if index <? 0 then 0 else index in
  let index := if index >=? SLIDES_length then SLIDES_length - 1 else index in
  if index =? current s then Returned s
  else updateUI (set_current index s).

(** [slideshowEl.querySelector('.slide')] followed by
    [classList.add('active')] on what it finds (lines 432-435). *)
Fixpoint activate_first (l : list SlideEl) : list SlideEl :=
  match l with
  | [] => []
  | el :: rest =>
      if contains "slide" (classList el)
      then {| classList := classList_add "active" (classList el);
              attributes := attributes el; img := img el;
              year_text := year_text el; caption_text := caption_text el |}
           :: rest
      else el :: activate_first rest
  end.

(** [initSlideshow()] (lines 415-453). *)
Definition initSlideshow (s : State) : Outcome State :=
  let s := set_elements (page_slideshow (document s)) (page_indicators (document s))
             (page_prev (document s)) (page_next (document s)) s in
  match slideshowEl s, indicatorsEl s, prevBtn s, nextBtn s with
  | Some _, Some _, Some _, Some _ =>
      let* s := renderSlides s in
      let* s := renderIndicators s in
      let* s := updateUI s in
      let s :=
        match slideshowEl s with
        | Some sl =>
            set_elements
              (Some {| slides := activate_first (slides sl); tabindex := tabindex sl |})
              (indicatorsEl s) (prevBtn s) (nextBtn s) s
        | None => s
        end in
      let s := set_host (S (prev_listeners s)) (S (next_listeners s))
                 (S (keydown_listeners s)) (intervals s) (console s) s in
      Returned
        (if prefers_reduced_motion s then s
         else set_host (prev_listeners s) (next_listeners s) (keydown_listeners s)
                (intervals s ++ [6000])%list (console s) s)
  | _, _, _, _ =>
      Returned (set_host (prev_listeners s) (next_listeners s) (keydown_listeners s)
                  (intervals s) (console s ++ ["Slideshow elements not found"])%list s)
  end.

(** What the user and the host can do to the page. *)
Inductive Event : Type :=
| click_prev
| click_next
| click_indicator (n : nat)
| keydown (key : string)
| tick.

(** The same listener, registered [n] times, run [n] times. *)
Fixpoint run_listeners (n : nat) (listener : State -> Outcome State) (s : State)
  : Outcome State :=
  match n with
  | O => Returned s
  | S n' => let* s1 := listener s in run_listeners n' listener s1
  end.

(** The [keydown] listener (lines 442-445). *)
Definition on_keydown (key : string) (s : State) : Outcome State :=
  let* s := if String.eqb key "ArrowLeft" then goTo (current s - 1) s
            else Returned s in
  if String.eqb key "ArrowRight" then goTo (current s + 1) s else Returned s.

(** An event reaches the listeners the module registered; a disabled
    button gets no click. *)
Definition dispatch (e : Event) (s : State) : Outcome State :=
  match e with
  | click_prev =>
      match prevBtn s with
      | Some b =>
          if disabled b then Returned s
          else run_listeners (prev_listeners s) (fun s => goTo (current s - 1) s) s
      | None => Returned s
      end
  | click_next =>
      match nextBtn s with
      | Some b =>
          if disabled b then Returned s
          else run_listeners (next_listeners s) (fun s => goTo (current s + 1) s) s
      | None => Returned s
      end
  | click_indicator n =>
      match indicatorsEl s with
      | Some ind =>
          match nth_error ind n with
          | Some el =>
              match goes_to el with
              | Some index => goTo index s
              | None => Returned s
              end
          | None => Returned s
          end
      | None => Returned s
      end
  | keydown key => run_listeners (keydown_listeners s) (on_keydown key) s
  | tick =>
      run_listeners (List.length (intervals s)) (fun s => goTo (current s + 1) s) s
  end.

Fixpoint dispatch_all (es : list Event) (s : State) : Outcome State :=
  match es with
  | [] => Returned s
  | e :: rest => let* s1 := dispatch e s in dispatch_all rest s1
  end.

(** The module as loaded on a page. *)
Definition loaded (p : Page) (reduced : bool) : State :=
  {| current := 0; slideshowEl := None; indicatorsEl := None;
     prevBtn := None; nextBtn := None; document := p;
     prefers_reduced_motion := reduced;
     prev_listeners := 0; next_listeners := 0; keydown_listeners := 0;
     intervals := []; console := [] |}.

(** The play of the intervals: [n] ticks in a row. *)
Definition ticks (n : nat) : list Event := repeat tick n.

(** A page with the four elements, as the markup has them. *)
Definition full_page : Page :=
  {| page_slideshow := Some {| slides := []; tabindex := None |};
     page_indicators := Some [];
     page_prev := Some {| disabled := false |};
     page_next := Some {| disabled := false |} |}.

(** A page without the previous-slide button. *)
Definition page_without_prev : Page :=
  {| page_slideshow := Some {| slides := []; tabindex := None |};
     page_indicators := Some [];
     page_prev := None;
     page_next := Some {| disabled := false |} |}.

(** The elements as they are when slide [cur] is on show. *)
Definition shown_slides (cur : Z) : list SlideEl :=
  forEach (fun slide index => mark_slide cur (renderSlide slide index) index) 0 SLIDES.

Definition shown_indicators (cur : Z) : list IndicatorEl :=
  forEach (fun _ index => mark_indicator cur (renderIndicator index) index) 0 SLIDES.

(** [index] brought into the range of the slides. *)
Definition clamp (index : Z) : Z :=
  Z.max 0 (Z.min index (SLIDES_length - 1)).

(** The slideshow shows slide [current]: that slide and its indicator, and
    no other, are marked; the buttons are disabled at the two ends; each
    listener is registered once. *)
Definition shows (s : State) : Prop :=
  0 <= current s < SLIDES_length
  /\ slideshowEl s = Some {| slides := shown_slides (current s); tabindex := Some "0" |}
  /\ indicatorsEl s = Some (shown_indicators (current s))
  /\ prevBtn s = Some {| disabled := current s =? 0 |}
  /\ nextBtn s = Some {| disabled := current s =? SLIDES_length - 1 |}
  /\ prev_listeners s = 1%nat /\ next_listeners s = 1%nat
  /\ keydown_listeners s = 1%nat
  /\ (List.length (intervals s) <= 1)%nat.

(** The state a call returned ([otherwise] if it did not return). *)
Definition returned_slideshow_state (o : Outcome State) (otherwise : State)
  : State :=
  match o with Returned s => s | _ => otherwise end.

(** [s] is a state of the slideshow on a page with the four elements:
    the module is loaded, [initSlideshow()] is called, and the events [es]
    are dispatched. *)
Definition displayed (p : Page) (reduced : bool) (es : list Event) (s : State)
  : Prop :=
  (exists sl ind b1 b2,
      page_slideshow p = Some sl /\ page_indicators p = Some ind
      /\ page_prev p = Some b1 /\ page_next p = Some b2)
  /\ exists s0, initSlideshow (loaded p reduced) = Returned s0
                /\ dispatch_all es s0 = Returned s.

(** The slideshow after four clicks on the next button. *)
Definition on_last_slide : State :=
  returned_slideshow_state
    (let* s0 := initSlideshow (loaded full_page false) in
     dispatch_all [click_next; click_next; click_next; click_next] s0)
    (loaded full_page false).

End Slideshow.

(** * Properties *)

(** ** The physics step *)

Lemma life_update (cfg : Config) (p : Particle) :
  life (update cfg p) = life p - 0.01.
Proof. reflexivity. Qed.

Lemma life_updates (cfg : Config) (n : nat) (p : Particle) :
  life (updates cfg n p) = decayed n (life p).
Proof.
  induction n as [|n IH]; [reflexivity|].
  change (life (update cfg (updates cfg n p)) = decayed n (life p) - 0.01).
  now rewrite life_update, IH.
Qed.

(** C2. One call of [update] is the five phases in the order gravity, wind
    resistance, position, rotation, fade-out.  Hence the new velocity is
    [(vy + gravity) * windResistance] (gravity is added before the drag
    scales it) and [vx * windResistance] (one factor for both axes), the
    position moves by that new velocity, the rotation by [rotationSpeed],
    [life] loses 0.01, and [opacity] is [Math.max(0, life)] of the new
    [life]; the sampled attributes are not touched. *)
Theorem update_in_source_order (cfg : Config) (p : Particle) :
  update cfg p
  = fade_out (update_rotation (update_position
      (apply_wind_resistance cfg (apply_gravity cfg p))))
  /\ update cfg p
     = {| x := x p + vx p * windResistance cfg;
          y := y p + (vy p + gravity cfg) * windResistance cfg;
          size := size p;
          color := color p;
          shape := shape p;
          vx := vx p * windResistance cfg;
          vy := (vy p + gravity cfg) * windResistance cfg;
          rotation := rotation p + rotationSpeed p;
          rotationSpeed := rotationSpeed p;
          opacity := Math_max 0 (life p - 0.01);
          life := life p - 0.01 |}
  /\ opacity (update cfg p) = Math_max 0 (life (update cfg p)).
Proof. repeat split. Qed.

(** The order shows: from rest, one step under the default configuration
    gives [vy = (0 + 0.5) * 0.98 = 0.49], where drag before gravity would
    give 0.5, and the position has moved by the new velocity. *)
Lemma update_from_rest :
  let p := update default_CONFIG (set_vy 0 falling_particle) in
  vy p = 0.49 /\ y p = 40.49 /\ (vy p =? 0 * 0.98 + 0.5) = false.
Proof. repeat split; vm_compute; reflexivity. Qed.

(** ** Lifetime of a particle *)

Lemma decayed_positive (n : nat) :
  (n <= 99)%nat -> (0 <? decayed n 1) = true.
Proof.
  intros Hn.
  assert (Hall : forallb (fun k => 0 <? decayed k 1) (seq 0 100) = true)
    by (vm_compute; reflexivity).
  rewrite forallb_forall in Hall. apply Hall, in_seq. lia.
Qed.

Lemma decayed_decreasing (n : nat) :
  (n <= 100)%nat -> (decayed (S n) 1 <? decayed n 1) = true.
Proof.
  intros Hn.
  assert (Hall : forallb (fun k => decayed (S k) 1 <? decayed k 1) (seq 0 101) = true)
    by (vm_compute; reflexivity).
  rewrite forallb_forall in Hall. apply Hall, in_seq. lia.
Qed.

Lemma decayed_100 : (0 <? decayed 100 1) = false /\ (0 <? decayed 101 1) = false.
Proof. split; vm_compute; reflexivity. Qed.

(** C3, as the code has it.  For a particle whose [life] is 1: each of
    the first 101 calls of [update] replaces [life] by [life - 0.01]
    (binary64 subtraction), a strictly smaller value; after each of the
    first 99 calls [isAlive] is decided by the vertical threshold alone;
    after the 100th call (and the 101st) [isAlive] is false wherever the
    particle is: [life] has then reached -7.5e-16, and [life > 0] fails. *)
Theorem culled_by_life_at_update_100 (cfg : Config) (c : Canvas) (p : Particle) :
  life p = 1 ->
  (forall n, (n <= 100)%nat ->
     life (updates cfg (S n) p) = life (updates cfg n p) - 0.01
     /\ (life (updates cfg (S n) p) <? life (updates cfg n p)) = true)
  /\ (forall n, (n <= 99)%nat ->
        isAlive c (updates cfg n p) = (y (updates cfg n p) <? height c + 50))
  /\ isAlive c (updates cfg 100 p) = false
  /\ isAlive c (updates cfg 101 p) = false.
Proof.
  intros Hlife. split; [|split; [|split]].
  - intros n Hn. split; [reflexivity|].
    rewrite !life_updates, Hlife. now apply decayed_decreasing.
  - intros n Hn. unfold isAlive. rewrite life_updates, Hlife, decayed_positive by assumption.
    reflexivity.
  - unfold isAlive. rewrite life_updates, Hlife.
    now rewrite (proj1 decayed_100).
  - unfold isAlive. rewrite life_updates, Hlife.
    now rewrite (proj2 decayed_100).
Qed.

(** A particle still far above the threshold passes [isAlive] after its
    99th update and fails it after its 100th. *)
Lemma culled_by_life_at_update_100_witness :
  isAlive page_3840_2160 (updates default_CONFIG 99 falling_particle) = true
  /\ isAlive page_3840_2160 (updates default_CONFIG 100 falling_particle) = false.
Proof.
  destruct (culled_by_life_at_update_100 default_CONFIG page_3840_2160
              falling_particle eq_refl) as (_ & Halive & Hdead & _).
  split.
  - rewrite (Halive 99%nat (le_n 99)). vm_compute. reflexivity.
  - exact Hdead.
Defined.

(** C3 as worded fails: the particle below has [life] 1 and stays above the
    vertical threshold through 101 updates, yet after its 100th update it
    is not alive. *)
Lemma dead_after_100_updates :
  life falling_particle = 1
  /\ forallb (fun n => y (updates default_CONFIG n falling_particle)
                       <? height page_3840_2160 + 50) (seq 0 102) = true
  /\ isAlive page_3840_2160 (updates default_CONFIG 100 falling_particle) = false.
Proof. repeat split; vm_compute; reflexivity. Qed.

(** ** Launch velocity, over the reals *)





(** The constructor on a host whose [Math.random] answers 0.5: the angle is
    the binary64 nearest to -pi/2, the speed -10, and [vy] is 10. *)
Lemma constructor_at_half :
  let p := new_Particle (H := at_minus_half_pi) default_CONFIG
             {| u_size := 0.5; u_color := 0.5; u_shape := 0.5; u_angle := 0.5;
                u_velocity := 0.5; u_rotation := 0.5; u_rotationSpeed := 0.5 |}
             400 40 in
  sample 0.5 (angleRange default_CONFIG) = - (0x1.921fb54442d18p+1 / 2)
  /\ sample 0.5 (initialVelocityRange default_CONFIG) = -10
  /\ vy p = 10 /\ life p = 1 /\ size p = 8
  /\ color p = Some "#1e3a5f"%string /\ shape p = Some "square"%string.
Proof. repeat split; vm_compute; reflexivity. Qed.



(** ** The frame loop *)

(** The loop of [animate] is a [map] of [update] followed by a [filter] on
    [isAlive]; it paints the survivors, in order, after what was already on
    the canvas. *)
Lemma filter_particles_spec (cfg : Config) (ps : list Particle) (c : Canvas) :
  filter_particles cfg c ps
  = (filter (isAlive c) (map (update cfg) ps),
     {| width := width c; height := height c;
        painted := painted c
                   ++ map paint_of (filter (isAlive c) (map (update cfg) ps));
        getContext := getContext c |}).
Proof.
  revert c. induction ps as [|p ps IH]; intros c.
  - cbn. rewrite app_nil_r. now destruct c.
  - cbn [filter_particles map filter].
    destruct (isAlive c (update cfg p)) eqn:Halive.
    + rewrite IH. cbn [map]. f_equal. cbn [draw width height painted getContext].
      now rewrite <- app_assoc.
    + apply IH.
Qed.

Lemma animate_spec (s : State) (c : Canvas) (k : Context) (ps : list Particle) :
  canvas s = Some c -> ctx s = Some k -> particles s = Some ps ->
  let kept := filter (isAlive c) (map (update (CONFIG s)) ps) in
  let c' := {| width := width c; height := height c;
               painted := map paint_of kept; getContext := getContext c |} in
  let s1 := set_particles (Some kept) (set_canvas (Some c') s) in
  animate s
  = Returned
      match kept with
      | [] => set_isAnimating (Some false) s1
      | _ :: _ =>
          set_animationId (Some (next_handle (host s)))
            (set_host (snd (requestAnimationFrame (host s))) s1)
      end.
Proof.
  intros Hc Hk Hps. unfold animate. rewrite Hc, Hk, Hps.
  rewrite filter_particles_spec.
  cbn [clearRect width height painted getContext app].
  change (isAlive (clearRect c)) with (isAlive c).
  destruct (filter (isAlive c) (map (update (CONFIG s)) ps)); reflexivity.
Qed.

(** C5. One frame step of an engine that has its surface: the collection
    becomes the particles that satisfy [isAlive] after their [update] of
    this frame, in their order; the canvas, cleared first, holds exactly one
    painting per survivor, so a particle dead after its update is not
    drawn; if no particle survives, no frame is requested and [isAnimating]
    becomes false, and otherwise exactly one more frame is requested and
    recorded in [animationId]. *)
Theorem animate_frame (s : State) (c : Canvas) (k : Context) (ps : list Particle) :
  canvas s = Some c -> ctx s = Some k -> particles s = Some ps ->
  exists s' c',
    animate s = Returned s'
    /\ particles s' = Some (filter (isAlive c) (map (update (CONFIG s)) ps))
    /\ (forall p, In p (filter (isAlive c) (map (update (CONFIG s)) ps))
                  <-> (exists q, In q ps /\ p = update (CONFIG s) q)
                      /\ (0 <? life p) = true
                      /\ (y p <? height c + 50) = true)
    /\ canvas s' = Some c'
    /\ painted c'
       = map paint_of (filter (isAlive c) (map (update (CONFIG s)) ps))
    /\ (filter (isAlive c) (map (update (CONFIG s)) ps) = [] ->
          frame_requests (host s') = frame_requests (host s)
          /\ isAnimating s' = Some false)
    /\ (filter (isAlive c) (map (update (CONFIG s)) ps) <> [] ->
          frame_requests (host s')
          = frame_requests (host s) ++ [next_handle (host s)]
          /\ animationId s' = Some (next_handle (host s))
          /\ isAnimating s' = isAnimating s).
Proof.
  intros Hc Hk Hps.
  pose proof (animate_spec s c k ps Hc Hk Hps) as Ha. cbv zeta in Ha.
  assert (Hin : forall p,
    In p (filter (isAlive c) (map (update (CONFIG s)) ps))
    <-> (exists q, In q ps /\ p = update (CONFIG s) q)
        /\ (0 <? life p) = true /\ (y p <? height c + 50) = true).
  { intros p. rewrite filter_In, in_map_iff. unfold isAlive.
    rewrite andb_true_iff. split.
    - intros [[q [Hq Hin]] Hal]. split; [exists q; auto | exact Hal].
    - intros [[q [Hin Hq]] Hal]. split; [exists q; auto | exact Hal]. }
  destruct (filter (isAlive c) (map (update (CONFIG s)) ps)) as [|p0 kept] eqn:Hkept.
  - eexists; eexists. split; [exact Ha|].
    cbn. repeat split; try reflexivity; try (apply Hin; assumption);
      try (intros; apply Hin; assumption); try congruence.
  - eexists; eexists. split; [exact Ha|].
    cbn. repeat split; try reflexivity; try (apply Hin; assumption);
      try (intros; apply Hin; assumption); try congruence.
Qed.

(** One frame of an engine with one particle in flight. *)
Lemma animate_frame_witness :
  exists s', animate animating_engine = Returned s'
             /\ particles s' = Some [update default_CONFIG falling_particle].
Proof.
  destruct (animate_frame animating_engine _ _ _ eq_refl eq_refl eq_refl)
    as (s' & c' & Hrun & Hps & _).
  exists s'. split; [exact Hrun|]. rewrite Hps. vm_compute. reflexivity.
Defined.

(** ** Spawning *)

Lemma set_same (s : State) (ps : list Particle) :
  particles s = Some ps ->
  set_host (host s) (set_particles (Some (ps ++ [])) s) = s.
Proof. destruct s; cbn; intros ->. now rewrite app_nil_r. Qed.

(** The loop of [createParticles] appends what [spawn] constructs. *)
Lemma createParticles_from_spec (fuel : nat) :
  forall (i x0 y0 count : float) (s : State) (ps : list Particle) (n : nat),
    loop_trips fuel i count = Some n ->
    particles s = Some ps ->
    createParticles_from fuel i x0 y0 count s
    = Returned (set_host (snd (spawn n (CONFIG s) x0 y0 (host s)))
                  (set_particles
                     (Some (ps ++ fst (spawn n (CONFIG s) x0 y0 (host s)))) s)).
Proof.
  induction fuel as [|fuel IH]; intros i x0 y0 count s ps n Htrips Hps.
  - cbn in *. destruct (i <? count); [discriminate|].
    injection Htrips as <-. cbn. now rewrite set_same.
  - cbn [loop_trips createParticles_from] in *.
    destruct (i <? count).
    + destruct (loop_trips fuel (i + 1) count) as [n'|] eqn:Hn'; [|discriminate].
      injection Htrips as <-.
      unfold push_new_Particle. rewrite Hps. cbn [Math_random7 bind].
      erewrite IH; [|exact Hn'|reflexivity].
      cbn [spawn Math_random7 CONFIG host set_host set_particles fst snd].
      destruct (spawn n' _ x0 y0 _) as [l h2] eqn:Hsp.
      cbn. rewrite <- app_assoc. reflexivity.
    + injection Htrips as <-. cbn. now rewrite set_same.
Qed.

Lemma spawn_length (n : nat) (cfg : Config) (x0 y0 : float) (h : Host) :
  List.length (fst (spawn n cfg x0 y0 h)) = n.
Proof.
  revert h. induction n as [|n IH]; intros h; [reflexivity|].
  cbn [spawn Math_random7]. specialize (IH (set_drawn (drawn h + 7) h)).
  destruct (spawn n cfg x0 y0 _). cbn in *. now rewrite IH.
Qed.

Lemma spawn_fresh (n : nat) (cfg : Config) (x0 y0 : float) (h : Host) (p : Particle) :
  In p (fst (spawn n cfg x0 y0 h)) ->
  x p = x0 /\ y p = y0 /\ life p = 1 /\ opacity p = 1.
Proof.
  revert h. induction n as [|n IH]; intros h; [intros []|].
  cbn [spawn Math_random7]. specialize (IH (set_drawn (drawn h + 7) h)).
  destruct (spawn n cfg x0 y0 _). cbn in *.
  intros [<- | Hin]; [repeat split | now apply IH].
Qed.

Lemma spawn_host (n : nat) (cfg : Config) (x0 y0 : float) (h : Host) :
  snd (spawn n cfg x0 y0 h) = set_drawn (drawn h + 7 * n) h.
Proof.
  revert h. induction n as [|n IH]; intros h.
  - cbn. rewrite Nat.add_0_r. now destruct h.
  - cbn [spawn Math_random7]. specialize (IH (set_drawn (drawn h + 7) h)).
    destruct (spawn n cfg x0 y0 _). cbn [snd] in *. rewrite IH.
    unfold set_drawn; cbn. f_equal. lia.
Qed.

(** ** Triggering *)

(** What [animate] leaves alone. *)
Lemma animate_frame_rule (s s' : State) :
  animate s = Returned s' ->
  CONFIG s' = CONFIG s
  /\ timeouts (host s') = timeouts (host s)
  /\ console (host s') = console (host s)
  /\ ctx s' = ctx s
  /\ drawn (host s') = drawn (host s).
Proof.
  unfold animate.
  destruct (ctx s) eqn:Hk, (canvas s) eqn:Hc;
    try (intros [= <-]; repeat split; congruence).
  destruct (particles s); [|discriminate].
  destruct (filter_particles _ _ _) as [[|p kept] c'];
    intros [= <-]; cbn; repeat split; congruence.
Qed.

Lemma animate_returns (s : State) (ps : list Particle) :
  particles s = Some ps -> exists s', animate s = Returned s'.
Proof.
  intros Hps. unfold animate. rewrite Hps.
  destruct (ctx s), (canvas s); try (eexists; reflexivity).
  destruct (filter_particles _ _ _) as [[|p kept] c']; eexists; reflexivity.
Qed.

(** A call of [triggerConfetti] that gets past its two guards: the burst is
    appended, [animate] runs if the engine was idle, and the timer is set. *)
Lemma triggerConfetti_spec (fuel : nat) (o : Options.t) (s : State)
      (c : Canvas) (k : Context) (ps : list Particle) (n : nat) :
  canvas s = Some c -> ctx s = Some k ->
  prefers_reduced_motion (host s) = false ->
  particles s = Some ps ->
  loop_trips fuel 0 (js_or (Options.count o) (particleCount (CONFIG s))) = Some n ->
  let x0 := js_or (Options.x o) (width c / 2) in
  let y0 := js_or (Options.y o) 40 in
  let s1 := set_host (snd (spawn n (CONFIG s) x0 y0 (host s)))
              (set_particles
                 (Some (ps ++ fst (spawn n (CONFIG s) x0 y0 (host s)))) s) in
  exists s2,
    (if truthy_bool (isAnimating s) then s2 = s1
     else animate (set_isAnimating (Some true) s1) = Returned s2)
    /\ triggerConfetti fuel o s
       = Returned (set_host (setTimeout auto_stop (duration (CONFIG s)) (host s2)) s2).
Proof.
  intros Hc Hk Hr Hps Hn x0 y0 s1.
  pose proof (createParticles_from_spec fuel 0 x0 y0 _ s ps n Hn Hps) as Hcp.
  fold s1 in Hcp.
  assert (Hrun : forall s2,
    (if truthy_bool (isAnimating s) then Returned s1
     else animate (set_isAnimating (Some true) s1)) = Returned s2 ->
    triggerConfetti fuel o s
    = Returned (set_host (setTimeout auto_stop (duration (CONFIG s2)) (host s2)) s2)).
  { intros s2 Hs2. unfold triggerConfetti, createParticles.
    rewrite Hc, Hk, Hr. cbv zeta. fold x0 y0. rewrite Hcp. cbn [bind].
    change (isAnimating s1) with (isAnimating s).
    destruct (truthy_bool (isAnimating s)); cbn [negb]; now rewrite Hs2. }
  destruct (truthy_bool (isAnimating s)).
  - exists s1. split; [reflexivity|]. now rewrite (Hrun s1 eq_refl).
  - destruct (animate_returns (set_isAnimating (Some true) s1)
                (ps ++ fst (spawn n (CONFIG s) x0 y0 (host s))) eq_refl)
      as [s2 Hs2].
    exists s2. split; [exact Hs2|]. rewrite (Hrun s2 Hs2).
    destruct (animate_frame_rule _ _ Hs2) as (-> & _). reflexivity.
Qed.

(** C6. If the host reports the reduced-motion preference when
    [triggerConfetti] is called, the call returns with the module's
    variables, [CONFIG], the canvas, the pending frame requests and timers
    and the random source as they were: only a line is logged.  In
    particular an empty collection stays empty and [isAnimating] stays
    false.  The preference is the host's at the call: nothing of an earlier
    answer is kept, and on an engine with its surface the next call spawns
    as soon as the host stops reporting it. *)
Theorem reduced_motion_is_no_op (fuel : nat) (o : Options.t) (s : State) :
  prefers_reduced_motion (host s) = true ->
  exists (m : Message) (s' : State),
    triggerConfetti fuel o s = Returned s'
    /\ s' = set_host (say m (host s)) s
    /\ canvas s' = canvas s /\ ctx s' = ctx s /\ particles s' = particles s
    /\ animationId s' = animationId s /\ isAnimating s' = isAnimating s
    /\ CONFIG s' = CONFIG s
    /\ frame_requests (host s') = frame_requests (host s)
    /\ timeouts (host s') = timeouts (host s)
    /\ drawn (host s') = drawn (host s)
    /\ (particles s = Some [] -> isAnimating s = Some false ->
        particles s' = Some [] /\ isAnimating s' = Some false)
    /\ (forall c k ps n,
          canvas s = Some c -> ctx s = Some k -> particles s = Some ps ->
          loop_trips fuel 0 (js_or (Options.count o) (particleCount (CONFIG s)))
          = Some n ->
          exists s'',
            triggerConfetti fuel o
              (set_host (set_prefers_reduced_motion false (host s')) s')
            = Returned s''
            /\ timeouts (host s'')
               = timeouts (host s)
                 ++ [ {| callback := auto_stop; delay := duration (CONFIG s) |} ]).
Proof.
  intros Hr.
  assert (Hcall : exists m,
    triggerConfetti fuel o s = Returned (set_host (say m (host s)) s)).
  { unfold triggerConfetti. rewrite Hr.
    destruct (canvas s), (ctx s); eexists; reflexivity. }
  destruct Hcall as [m Hcall].
  exists m, (set_host (say m (host s)) s).
  split; [exact Hcall|].
  repeat match goal with |- _ /\ _ => split end; try reflexivity; auto.
  intros c k ps n Hc Hk Hps Hn.
  match goal with |- context [triggerConfetti fuel o ?S] => set (s0 := S) end.
  destruct (triggerConfetti_spec fuel o s0 c k ps n) as (s2 & Hs2 & Hrun);
    try reflexivity; try assumption.
  eexists. split; [exact Hrun|].
  cbn [host set_host setTimeout set_timeouts timeouts].
  change (isAnimating s0) with (isAnimating s) in Hs2.
  destruct (truthy_bool (isAnimating s)).
  - subst s2. cbn. rewrite spawn_host. reflexivity.
  - destruct (animate_frame_rule _ _ Hs2) as (_ & -> & _).
    cbn. rewrite spawn_host. reflexivity.
Qed.

(** An idle engine on a host that reports the preference. *)
Lemma reduced_motion_is_no_op_witness :
  exists s', triggerConfetti 150 Options.empty reduced_motion_engine = Returned s'
             /\ particles s' = Some [] /\ isAnimating s' = Some false.
Proof.
  destruct (reduced_motion_is_no_op 150 Options.empty reduced_motion_engine eq_refl)
    as (m & s' & Hrun & _ & _ & _ & _ & _ & _ & _ & _ & _ & _ & Hempty & _).
  exists s'. split; [exact Hrun|]. apply Hempty; reflexivity.
Defined.

(** ** Stopping *)

Lemma stopConfetti_returns (s : State) :
  exists s', stopConfetti s = Returned s'
             /\ particles s' = Some [] /\ isAnimating s' = Some false
             /\ CONFIG s' = CONFIG s /\ ctx s' = ctx s
             /\ timeouts (host s') = timeouts (host s)
             /\ console (host s') = console (host s)
             /\ next_handle (host s') = next_handle (host s)
             /\ canvas s' = match ctx s with
                            | Some _ => option_map clearRect (canvas s)
                            | None => canvas s
                            end
             /\ animationId s'
                = (if truthy_id (animationId s) then None else animationId s)
             /\ frame_requests (host s')
                = match animationId s with
                  | Some id =>
                      if truthy_id (Some id)
                      then remove Z.eq_dec id (frame_requests (host s))
                      else frame_requests (host s)
                  | None => frame_requests (host s)
                  end.
Proof.
  destruct s as [cv cx pts aid an cfg h]. unfold stopConfetti.
  cbn [animationId canvas ctx particles isAnimating CONFIG host].
  destruct aid as [id|]; [destruct (truthy_id (Some id)) eqn:Ht|];
    destruct cx, cv; cbn;
    eexists; (split; [reflexivity|]); cbn;
    repeat match goal with |- _ /\ _ => split end;
    try reflexivity; try (now rewrite Ht).
Qed.

(** ** The deferred stop *)

(** C8. A call of [triggerConfetti] that spawns (surface present, no
    reduced-motion preference, the spawning loop run to its end) returns
    with one more timer pending, whose callback is the guarded stop and
    whose delay is [CONFIG.duration] as it is at that call, 4000 by default.
    When a timer fires, its callback is [stopConfetti] if [isAnimating] is
    true at that moment and nothing otherwise.  So the first timer to fire
    while the engine is animating leaves the collection empty whatever
    bursts it held, and clears the flag; the other timers stay pending. *)
Theorem deferred_stop :
  (forall fuel o s c k ps n,
      canvas s = Some c -> ctx s = Some k ->
      prefers_reduced_motion (host s) = false ->
      particles s = Some ps ->
      loop_trips fuel 0 (js_or (Options.count o) (particleCount (CONFIG s)))
      = Some n ->
      exists s',
        triggerConfetti fuel o s = Returned s'
        /\ timeouts (host s')
           = timeouts (host s)
             ++ [ {| callback := auto_stop; delay := duration (CONFIG s) |} ])
  /\ duration default_CONFIG = 4000
  /\ (forall s, isAnimating s = Some true ->
        run_callback auto_stop s = stopConfetti s)
  /\ (forall s, isAnimating s <> Some true ->
        run_callback auto_stop s = Returned s)
  /\ (forall s n t,
        nth_error (timeouts (host s)) n = Some t ->
        isAnimating s = Some true ->
        exists s',
          run_timeout n s = Returned s'
          /\ particles s' = Some []
          /\ isAnimating s' = Some false
          /\ timeouts (host s')
             = firstn n (timeouts (host s)) ++ skipn (S n) (timeouts (host s))).
Proof.
  split; [|split; [|split; [|split]]].
  - intros fuel o s c k ps n Hc Hk Hr Hps Hn.
    destruct (triggerConfetti_spec fuel o s c k ps n Hc Hk Hr Hps Hn)
      as (s2 & Hs2 & Hrun).
    eexists. split; [exact Hrun|].
    cbn [host set_host setTimeout set_timeouts timeouts].
    destruct (truthy_bool (isAnimating s)).
    + subst s2. cbn. now rewrite spawn_host.
    + destruct (animate_frame_rule _ _ Hs2) as (_ & -> & _).
      cbn. now rewrite spawn_host.
  - reflexivity.
  - intros s Ha. cbn. now rewrite Ha.
  - intros s Ha. cbn. destruct (isAnimating s) as [[|]|]; [now destruct Ha| |];
      reflexivity.
  - intros s n t Ht Ha. unfold run_timeout. rewrite Ht.
    destruct t as [[] d]. cbn [callback run_callback].
    change (isAnimating (set_host _ s)) with (isAnimating s). rewrite Ha.
    cbn [truthy_bool].
    match goal with |- context [stopConfetti ?S] =>
      destruct (stopConfetti_returns S) as (s' & Hs' & Hp & Hi & _ & _ & Ht' & _)
    end.
    exists s'. repeat split; assumption.
Qed.

(** Two overlapping bursts: the first call's timer fires while the second
    burst is still in flight, and stops it too. *)
Lemma deferred_stop_witness :
  exists s', run_timeout 0 two_bursts = Returned s'
             /\ particles two_bursts <> Some []
             /\ particles s' = Some []
             /\ isAnimating s' = Some false
             /\ List.length (timeouts (host s')) = 1%nat.
Proof.
  destruct deferred_stop as (_ & _ & _ & _ & Hfire).
  destruct (Hfire two_bursts 0%nat {| callback := auto_stop; delay := 4000 |}
              eq_refl eq_refl) as (s' & Hrun & Hps & Hflag & Htimers).
  exists s'. repeat split; try assumption.
  - vm_compute. discriminate.
  - rewrite Htimers. reflexivity.
Defined.

Lemma stopConfetti_idempotent (s s' : State) :
  stopConfetti s = Returned s' -> stopConfetti s' = Returned s'.
Proof.
  destruct s as [cv cx pts aid an cfg h]. unfold stopConfetti.
  cbn [animationId canvas ctx particles isAnimating CONFIG host].
  destruct aid as [id|]; [unfold truthy_id; destruct (id =? 0)%Z eqn:Ht|];
    destruct cx, cv; cbn; intros [= <-]; cbn; try rewrite Ht; reflexivity.
Qed.

Lemma tracked_stop (s s' : State) :
  tracked s -> stopConfetti s = Returned s' ->
  frame_requests (host s') = [] /\ tracked s'.
Proof.
  intros [Hnext Hfr] Hstop.
  destruct (stopConfetti_returns s) as (s1 & Hs1 & _ & _ & _ & _ & _ & _ & Hn & _ & _ & Hf).
  rewrite Hstop in Hs1. injection Hs1 as <-.
  assert (Hnil : frame_requests (host s') = []).
  { rewrite Hf. destruct Hfr as [Hnil | (id & Hid & Hone & Haid & _)].
    - rewrite Hnil. destruct (animationId s) as [id|]; [|reflexivity].
      now destruct (truthy_id (Some id)).
    - rewrite Haid, Hone. cbn.
      destruct (Z.eqb_spec id 0); [lia|]. cbn.
      now destruct (Z.eq_dec id id). }
  split; [exact Hnil|]. split; [now rewrite Hn | now left].
Qed.

(** ** Missing surface *)

Lemma set_canvas_same (s : State) : set_canvas (canvas s) s = s.
Proof. now destruct s. Qed.

(** C7, as the code has it.  While [canvas] is unset (no surface was found,
    or [initConfetti] never ran) no call throws, and: [initConfetti] on a
    page without the canvas and [triggerConfetti] only log a warning;
    [animate] and [resizeCanvas] do nothing; [stopConfetti] still empties
    the collection and clears [isAnimating] but touches nothing else of the
    module; [updateConfig] still merges into [CONFIG].  [canvas] stays unset
    after each of them. *)
Theorem without_surface (s : State) :
  canvas s = None ->
  (document_canvas (host s) = None ->
   initConfetti s
   = Returned (set_host (say (console_warn "Confetti canvas not found") (host s)) s))
  /\ (forall fuel o,
        triggerConfetti fuel o s
        = Returned (set_host (say (console_warn "Confetti not initialized") (host s)) s))
  /\ animate s = Returned s
  /\ resizeCanvas s = s
  /\ (exists s',
        stopConfetti s = Returned s'
        /\ canvas s' = None /\ ctx s' = ctx s /\ CONFIG s' = CONFIG s
        /\ console (host s') = console (host s)
        /\ timeouts (host s') = timeouts (host s)
        /\ particles s' = Some [] /\ isAnimating s' = Some false)
  /\ (forall n,
        updateConfig n s = Returned (set_CONFIG (Object_assign (CONFIG s) n) s)).
Proof.
  intros Hc. split; [|split; [|split; [|split; [|split]]]].
  - intros Hdoc.
    assert (E : set_canvas None s = s) by (rewrite <- Hc; apply set_canvas_same).
    unfold initConfetti. rewrite Hdoc, E, Hc. reflexivity.
  - intros fuel o. unfold triggerConfetti. now rewrite Hc.
  - unfold animate. rewrite Hc. now destruct (ctx s).
  - unfold resizeCanvas. now rewrite Hc.
  - destruct (stopConfetti_returns s)
      as (s' & Hs' & Hp & Hi & Hcfg & Hk & Ht & Hcons & _ & Hcv & _).
    exists s'. rewrite Hc in Hcv. cbn in Hcv.
    assert (canvas s' = None) by (destruct (ctx s); exact Hcv).
    repeat split; assumption.
  - reflexivity.
Qed.

(** The module as loaded, on a page without the canvas. *)
Lemma without_surface_witness :
  triggerConfetti 150 Options.empty (loaded page_without_canvas)
  = Returned
      (set_host (say (console_warn "Confetti not initialized") page_without_canvas)
                (loaded page_without_canvas)).
Proof.
  destruct (without_surface (loaded page_without_canvas) eq_refl)
    as (_ & Htrigger & _).
  exact (Htrigger 150%nat Options.empty).
Defined.

(** C7 as worded fails: after [initConfetti()] has found no canvas,
    [updateConfig({ gravity: 0 })] changes [CONFIG.gravity] from 0.5 to 0,
    and [stopConfetti()] assigns [particles] and [isAnimating], which were
    unassigned. *)
Lemma state_changes_without_surface :
  exists s s1 s2,
    initConfetti (loaded page_without_canvas) = Returned s
    /\ canvas s = None
    /\ updateConfig gravity_0 s = Returned s1
    /\ gravity (CONFIG s) = 0.5 /\ gravity (CONFIG s1) = 0
    /\ s1 <> s
    /\ stopConfetti s = Returned s2
    /\ particles s = None /\ particles s2 = Some []
    /\ isAnimating s = None /\ isAnimating s2 = Some false
    /\ s2 <> s.
Proof.
  do 3 eexists.
  repeat match goal with |- _ /\ _ => split end; try reflexivity.
  - intros E. apply (f_equal (fun s => PrimFloat.is_zero (gravity (CONFIG s)))) in E.
    vm_compute in E. discriminate.
  - intros E. apply (f_equal particles) in E. discriminate.
Qed.

(** ** Configuration *)

(** C9. [updateConfig(newConfig)] returns with every field of [CONFIG]
    that [newConfig] names holding the named value and every other field
    as before; nothing else changes: the collection, and with it every
    attribute of every live particle, [isAnimating], [animationId], the
    canvas and the host are the same.  The new values are read by the next
    physics step and the next constructor call. *)
Theorem updateConfig_merges (n : PartialConfig) (s : State) :
  exists s',
    updateConfig n s = Returned s'
    /\ merged particleCount (new_particleCount n) (CONFIG s) (CONFIG s')
    /\ merged duration (new_duration n) (CONFIG s) (CONFIG s')
    /\ merged colors (new_colors n) (CONFIG s) (CONFIG s')
    /\ merged shapes (new_shapes n) (CONFIG s) (CONFIG s')
    /\ merged gravity (new_gravity n) (CONFIG s) (CONFIG s')
    /\ merged windResistance (new_windResistance n) (CONFIG s) (CONFIG s')
    /\ merged initialVelocityRange (new_initialVelocityRange n) (CONFIG s) (CONFIG s')
    /\ merged angleRange (new_angleRange n) (CONFIG s) (CONFIG s')
    /\ particles s' = particles s
    /\ isAnimating s' = isAnimating s
    /\ animationId s' = animationId s
    /\ canvas s' = canvas s /\ ctx s' = ctx s
    /\ host s' = host s
    /\ (forall c k ps, canvas s = Some c -> ctx s = Some k -> particles s = Some ps ->
          exists s'',
            animate s' = Returned s''
            /\ particles s''
               = Some (filter (isAlive c) (map (update (CONFIG s')) ps)))
    /\ (forall x0 y0 ps, particles s = Some ps ->
          push_new_Particle x0 y0 s'
          = Returned
              (set_host (snd (Math_random7 (host s)))
                 (set_particles
                    (Some (ps ++ [new_Particle (H := trig (host s)) (CONFIG s')
                                    (fst (Math_random7 (host s))) x0 y0])) s'))).
Proof.
  eexists. split; [reflexivity|].
  destruct n as [n1 n2 n3 n4 n5 n6 n7 n8].
  repeat match goal with |- _ /\ _ => split end;
    try reflexivity;
    try (unfold merged; cbn;
         match goal with |- match ?o with _ => _ end => destruct o; reflexivity end).
  - intros c k ps Hc Hk Hps.
    match goal with |- context [animate ?S] =>
      pose proof (animate_spec S c k ps Hc Hk Hps) as Ha
    end.
    cbv zeta in Ha. eexists. split; [exact Ha|].
    destruct (filter _ _); reflexivity.
  - intros x0 y0 ps Hps. unfold push_new_Particle.
    cbn [particles set_CONFIG]. now rewrite Hps.
Qed.

(** ** Options of [triggerConfetti] *)

Lemma js_or_zero (d : float) : js_or (Some 0) d = d.
Proof. reflexivity. Qed.

Lemma js_or_default (d : float) : js_or (Some d) d = d.
Proof. unfold js_or. now destruct (truthy_number d). Qed.

(** C10. In a call of [triggerConfetti], an option that is 0 is read as
    if it were absent: the call does what it does without that option, so
    [x: 0] is the horizontal centre [canvas.width / 2], [y: 0] is 40 and
    [count: 0] is [CONFIG.particleCount].  On an engine with its surface
    and no reduced-motion preference, [{ x: 0, y: 0, count: 0 }] therefore
    constructs as many particles as the loop makes trips for
    [CONFIG.particleCount] (150 by default), all at
    [(canvas.width / 2, 40)]. *)
Theorem zero_option_is_default (fuel : nat) (s : State) :
  (forall oy oc,
      triggerConfetti fuel (Options.make (Some 0) oy oc) s
      = triggerConfetti fuel (Options.make None oy oc) s)
  /\ (forall ox oc,
        triggerConfetti fuel (Options.make ox (Some 0) oc) s
        = triggerConfetti fuel (Options.make ox None oc) s)
  /\ (forall ox oy,
        triggerConfetti fuel (Options.make ox oy (Some 0)) s
        = triggerConfetti fuel (Options.make ox oy None) s)
  /\ (forall c, canvas s = Some c ->
        triggerConfetti fuel (Options.make (Some 0) (Some 0) (Some 0)) s
        = triggerConfetti fuel
            (Options.make (Some (width c / 2)) (Some 40)
                          (Some (particleCount (CONFIG s)))) s)
  /\ (forall c k ps n,
        canvas s = Some c -> ctx s = Some k ->
        prefers_reduced_motion (host s) = false ->
        particles s = Some ps ->
        loop_trips fuel 0 (particleCount (CONFIG s)) = Some n ->
        let burst := fst (spawn n (CONFIG s) (width c / 2) 40 (host s)) in
        exists s',
          triggerConfetti fuel (Options.make (Some 0) (Some 0) (Some 0)) s
          = Returned s'
          /\ drawn (host s') = (drawn (host s) + 7 * n)%nat
          /\ List.length burst = n
          /\ (forall p, In p burst -> x p = width c / 2 /\ y p = 40)
          /\ (isAnimating s = Some true -> particles s' = Some (ps ++ burst)))
  /\ loop_trips 150 0 (particleCount default_CONFIG) = Some 150%nat.
Proof.
  split; [|split; [|split; [|split; [|split]]]]; try reflexivity.
  - intros c Hc. unfold triggerConfetti. rewrite Hc. cbn [Options.x Options.y Options.count].
    now rewrite !js_or_zero, !js_or_default.
  - intros c k ps n Hc Hk Hr Hps Hn burst.
    destruct (triggerConfetti_spec fuel (Options.make (Some 0) (Some 0) (Some 0))
                s c k ps n Hc Hk Hr Hps Hn) as (s2 & Hs2 & Hrun).
    cbn [Options.x Options.y] in Hs2. rewrite !js_or_zero in Hs2. fold burst in Hs2.
    eexists. split; [exact Hrun|].
    split; [|split; [apply spawn_length|split]].
    + cbn [host set_host setTimeout set_timeouts drawn].
      destruct (truthy_bool (isAnimating s)).
      * subst s2. cbn. now rewrite spawn_host.
      * destruct (animate_frame_rule _ _ Hs2) as (_ & _ & _ & _ & ->).
        cbn. now rewrite spawn_host.
    + intros p Hp. destruct (spawn_fresh _ _ _ _ _ _ Hp) as (Hx & Hy & _).
      now split.
    + intros Ha. rewrite Ha in Hs2. cbn in Hs2. now subst s2.
Qed.

(** [triggerConfetti({ x: 0, y: 0, count: 0 })] on an idle engine with the
    default configuration: 150 constructor calls, seven random values
    each. *)
Lemma zero_option_is_default_witness :
  exists s',
    triggerConfetti 150 (Options.make (Some 0) (Some 0) (Some 0)) initialized_engine
    = Returned s'
    /\ drawn (host s') = 1050%nat.
Proof.
  destruct (zero_option_is_default 150 initialized_engine)
    as (_ & _ & _ & _ & Hburst & _).
  destruct (Hburst {| width := 800; height := 600; painted := [];
                      getContext := Some CanvasRenderingContext2D |}
                   CanvasRenderingContext2D [] 150%nat
                   eq_refl eq_refl eq_refl eq_refl eq_refl)
    as (s' & Hrun & Hdrawn & _).
  exists s'. split; [exact Hrun | exact Hdrawn].
Defined.

(** ** Frame requests stay tracked *)

(** [tracked] only looks at these. *)
Lemma tracked_same (s s' : State) :
  frame_requests (host s') = frame_requests (host s) ->
  next_handle (host s') = next_handle (host s) ->
  animationId s' = animationId s ->
  isAnimating s' = isAnimating s ->
  tracked s -> tracked s'.
Proof.
  unfold tracked. intros -> -> -> ->. exact (fun H => H).
Qed.

Lemma createParticles_from_frame_rule (fuel : nat) :
  forall (i x0 y0 count : float) (s s' : State),
    createParticles_from fuel i x0 y0 count s = Returned s' ->
    frame_requests (host s') = frame_requests (host s)
    /\ next_handle (host s') = next_handle (host s)
    /\ animationId s' = animationId s
    /\ isAnimating s' = isAnimating s.
Proof.
  induction fuel as [|fuel IH]; intros i x0 y0 count s s';
    cbn [createParticles_from]; destruct (i <? count);
    try discriminate; try (intros [= <-]; auto).
  unfold push_new_Particle. destruct (particles s); [|discriminate].
  cbn [Math_random7 bind]. intros Hrec.
  destruct (IH _ _ _ _ _ _ Hrec) as (-> & -> & -> & ->). auto.
Qed.

Lemma animate_tracked (s s' : State) :
  (0 < next_handle (host s))%Z ->
  frame_requests (host s) = [] ->
  isAnimating s = Some true ->
  animate s = Returned s' -> tracked s'.
Proof.
  intros Hnext Hnil Ha. unfold animate.
  destruct (ctx s), (canvas s);
    try (intros [= <-]; split; [exact Hnext | now left]).
  destruct (particles s); [|discriminate].
  destruct (filter_particles _ _ _) as [[|p kept] c']; intros [= <-].
  - split; [exact Hnext | now left].
  - split; cbn; [lia|]. right. exists (next_handle (host s)).
    rewrite Hnil. repeat split; try lia; auto.
Qed.

Lemma tracked_idle (s : State) :
  tracked s -> truthy_bool (isAnimating s) = false ->
  frame_requests (host s) = [].
Proof.
  intros [_ [Hnil | (id & _ & _ & _ & Ha)]] Hidle; [exact Hnil|].
  rewrite Ha in Hidle. discriminate.
Qed.

Lemma tracked_triggerConfetti (fuel : nat) (o : Options.t) (s s' : State) :
  tracked s -> triggerConfetti fuel o s = Returned s' -> tracked s'.
Proof.
  intros Ht. unfold triggerConfetti.
  destruct (canvas s) as [c|]; [destruct (ctx s) as [k|]|];
    try (intros [= <-]; now apply (tracked_same s)).
  destruct (prefers_reduced_motion (host s));
    [intros [= <-]; now apply (tracked_same s)|].
  cbv zeta. unfold createParticles.
  destruct (createParticles_from _ _ _ _ _ s) as [s1| |] eqn:Hs1; try discriminate.
  destruct (createParticles_from_frame_rule _ _ _ _ _ _ _ Hs1) as (Hf & Hn & Hi & Ha).
  assert (Ht1 : tracked s1) by (now apply (tracked_same s)).
  cbn [bind]. destruct (truthy_bool (isAnimating s1)) eqn:Hidle; cbn [negb bind].
  - intros [= <-]. now apply (tracked_same s1).
  - destruct (animate _) as [s2| |] eqn:Hs2; try discriminate.
    cbn [bind]. intros [= <-]. apply (tracked_same s2); try reflexivity.
    apply (animate_tracked (set_isAnimating (Some true) s1) s2
             (proj1 Ht1) (tracked_idle s1 Ht1 Hidle) eq_refl Hs2).
Qed.

Lemma tracked_run_frame (id : Z) (s s' : State) :
  tracked s -> run_frame id s = Returned s' -> tracked s'.
Proof.
  intros Ht. unfold run_frame.
  destruct (in_dec Z.eq_dec id (frame_requests (host s))) as [Hin|_];
    [|now intros [= <-]].
  destruct Ht as [Hnext [Hnil | (id0 & Hid & Hone & _ & Ha)]].
  - now rewrite Hnil in Hin.
  - rewrite Hone in Hin. destruct Hin as [<- | []].
    apply animate_tracked; [exact Hnext| |exact Ha].
    cbn. rewrite Hone. cbn. now destruct (Z.eq_dec id0 id0).
Qed.

Lemma tracked_run_timeout (n : nat) (s s' : State) :
  tracked s -> run_timeout n s = Returned s' -> tracked s'.
Proof.
  intros Ht. unfold run_timeout.
  destruct (nth_error _ n) as [[[] d]|]; [|now intros [= <-]].
  cbn [callback run_callback].
  match goal with |- context [stopConfetti ?S] => set (s0 := S) end.
  assert (Ht0 : tracked s0) by (now apply (tracked_same s)).
  destruct (truthy_bool (isAnimating s0)).
  - intros Hstop. now apply (tracked_stop s0 s').
  - now intros [= <-].
Qed.

Lemma tracked_turn (t : Turn) (s s' : State) :
  tracked s -> turn t s = Returned s' -> tracked s'.
Proof.
  intros Ht. destruct t as [fuel o| |n|id|n|]; cbn [turn].
  - now apply tracked_triggerConfetti.
  - intros Hstop. now apply (tracked_stop s s').
  - intros [= <-]. now apply (tracked_same s).
  - now apply tracked_run_frame.
  - now apply tracked_run_timeout.
  - intros [= <-]. destruct (resize_listener (host s)); [|exact Ht].
    unfold resizeCanvas. destruct (canvas s); [|exact Ht].
    now apply (tracked_same s).
Qed.

Lemma tracked_turns (ts : list Turn) :
  forall s s', tracked s -> turns ts s = Returned s' -> tracked s'.
Proof.
  induction ts as [|t ts IH]; intros s s' Ht; cbn [turns].
  - now intros [= <-].
  - destruct (turn t s) as [s1| |] eqn:Hs1; try discriminate.
    cbn [bind]. apply IH. now apply (tracked_turn t s).
Qed.

Lemma tracked_initConfetti (h : Host) (s : State) :
  frame_requests h = [] -> (0 < next_handle h)%Z ->
  initConfetti (loaded h) = Returned s -> tracked s.
Proof.
  intros Hnil Hnext. unfold initConfetti. cbn [host set_canvas canvas loaded].
  destruct (document_canvas h); intros [= <-]; (split; [exact Hnext | now left]).
Qed.

(** ** What [stopConfetti] guarantees *)

(** C4, as the code has it.  From every state [stopConfetti] returns with
    an empty collection and [isAnimating] false; the frame request recorded
    in [animationId] is no longer pending and no request has been added;
    when the pending requests are tracked (at most the recorded one) none
    is pending afterwards; and a second call returns the state the first
    one returned.  The requests are tracked in every state the module
    reaches after it is loaded, initialized once, and then called and
    called back in any order: there no frame request is pending after
    [stopConfetti]. *)
Theorem stop_resets_engine :
  (forall s, exists s',
      stopConfetti s = Returned s'
      /\ particles s' = Some []
      /\ isAnimating s' = Some false
      /\ (forall id, animationId s = Some id -> id <> 0%Z ->
                     ~ In id (frame_requests (host s')))
      /\ (forall id, In id (frame_requests (host s')) ->
                     In id (frame_requests (host s)))
      /\ (tracked s -> frame_requests (host s') = [])
      /\ stopConfetti s' = Returned s')
  /\ (forall h ts s0 s,
        frame_requests h = [] -> (0 < next_handle h)%Z ->
        initConfetti (loaded h) = Returned s0 ->
        turns ts s0 = Returned s ->
        tracked s
        /\ exists s', stopConfetti s = Returned s'
                      /\ frame_requests (host s') = []).
Proof.
  split.
  - intros s.
    destruct (stopConfetti_returns s)
      as (s' & Hs' & Hp & Hi & _ & _ & _ & _ & _ & _ & _ & Hf).
    exists s'. split; [exact Hs'|]. split; [exact Hp|]. split; [exact Hi|].
    split; [|split; [|split]].
    + intros id Hid Hnz. rewrite Hf, Hid. cbn.
      destruct (Z.eqb_spec id 0); [contradiction|]. cbn. apply remove_In.
    + intros id. rewrite Hf. destruct (animationId s) as [id0|]; [|tauto].
      destruct (truthy_id (Some id0)); [|tauto].
      intros Hin. now apply in_remove in Hin.
    + intros Ht. now apply (tracked_stop s s').
    + now apply (stopConfetti_idempotent s).
  - intros h ts s0 s Hnil Hnext Hinit Hrun.
    assert (Ht : tracked s).
    { apply (tracked_turns ts s0 s); [|exact Hrun].
      now apply (tracked_initConfetti h). }
    split; [exact Ht|].
    destruct (stopConfetti_returns s) as (s' & Hs' & _).
    exists s'. split; [exact Hs'|]. now apply (tracked_stop s s').
Qed.

(** An initialized engine with two bursts in flight: no frame request is
    pending after [stopConfetti]. *)
Lemma stop_resets_engine_witness :
  exists s', stopConfetti two_bursts = Returned s'
             /\ frame_requests (host two_bursts) = [1%Z]
             /\ frame_requests (host s') = [].
Proof.
  destruct stop_resets_engine as [_ Hreach].
  destruct (Hreach page_with_canvas
              [call_triggerConfetti 150 Options.empty;
               call_triggerConfetti 150 (Options.make None None (Some 3))]
              initialized_engine two_bursts
              eq_refl eq_refl eq_refl) as (_ & s' & Hs' & Hnil).
  - vm_compute. reflexivity.
  - exists s'. split; [exact Hs'|]. split; [reflexivity | exact Hnil].
Defined.

(** C4 as worded fails: [initConfetti(); triggerConfetti();
    initConfetti(); triggerConfetti(); stopConfetti()] returns with the
    first call's frame request still pending.  The second [initConfetti]
    cleared [isAnimating] while that request was pending, so the second
    [triggerConfetti] requested another frame and recorded only that one. *)
Lemma frame_pending_after_stop :
  exists s',
    calls [initConfetti; triggerConfetti 150 Options.empty;
           initConfetti; triggerConfetti 150 Options.empty;
           stopConfetti] (loaded page_with_canvas) = Returned s'
    /\ frame_requests (host s') = [1%Z]
    /\ frame_requests (host s') <> [].
Proof.
  eexists. split; [vm_compute; reflexivity|]. split; [reflexivity|discriminate].
Qed.

(** * Further properties of the engine *)

(** ** Spawning *)

Lemma loop_trips_none (fuel : nat) (i count : float) :
  (i <? count) = false -> loop_trips fuel i count = Some O.
Proof. intros H. destruct fuel; cbn; now rewrite H. Qed.

(** For every integer count up to 500 the loop makes exactly [count] trips,
    and [count] fuel sees its end. *)
Lemma loop_trips_count (n : nat) :
  (n <= 500)%nat -> loop_trips n 0 (count_number n) = Some n.
Proof.
  intros Hn.
  assert (Hall : forallb
            (fun k => match loop_trips k 0 (count_number k) with
                      | Some j => Nat.eqb j k
                      | None => false
                      end) (seq 0 501) = true)
    by (vm_compute; reflexivity).
  rewrite forallb_forall in Hall.
  specialize (Hall n). rewrite in_seq in Hall.
  destruct (loop_trips n 0 (count_number n)) as [j|].
  - f_equal. apply Nat.eqb_eq. apply Hall. lia.
  - discriminate Hall. lia.
Qed.

(** The number of trips does not depend on the fuel that sees the end of
    the loop. *)
Lemma loop_trips_fuel (f1 : nat) :
  forall (f2 : nat) (i count : float) (n1 n2 : nat),
    loop_trips f1 i count = Some n1 -> loop_trips f2 i count = Some n2 ->
    n1 = n2.
Proof.
  induction f1 as [|f1 IH]; intros f2 i count n1 n2;
    destruct f2 as [|f2]; cbn [loop_trips];
    destruct (i <? count); try discriminate; try congruence.
  destruct (loop_trips f1 _ _) as [m1|] eqn:H1; [|discriminate].
  destruct (loop_trips f2 _ _) as [m2|] eqn:H2; [|discriminate].
  cbn. intros [= <-] [= <-]. f_equal. exact (IH _ _ _ _ _ H1 H2).
Qed.

(** [createParticles(x, y, count)]: the particles already in the collection
    stay, in their order; as many particles as the loop makes trips are
    appended, each at [(x, y)] with [life] and [opacity] 1; each took seven
    values from [Math.random]; nothing else of the engine changes.  An
    integer [count] up to 500 appends exactly [count] particles. *)
Theorem createParticles_appends (fuel : nat) (x0 y0 count : float)
        (s : State) (ps : list Particle) (n : nat) :
  particles s = Some ps ->
  loop_trips fuel 0 count = Some n ->
  exists s' burst,
    createParticles fuel x0 y0 count s = Returned s'
    /\ particles s' = Some (ps ++ burst)
    /\ List.length burst = n
    /\ (forall p, In p burst ->
          x p = x0 /\ y p = y0 /\ life p = 1 /\ opacity p = 1)
    /\ drawn (host s') = (drawn (host s) + 7 * n)%nat
    /\ canvas s' = canvas s /\ ctx s' = ctx s /\ CONFIG s' = CONFIG s
    /\ isAnimating s' = isAnimating s /\ animationId s' = animationId s
    /\ frame_requests (host s') = frame_requests (host s)
    /\ timeouts (host s') = timeouts (host s)
    /\ console (host s') = console (host s)
    /\ (forall k, (k <= 500)%nat -> count = count_number k -> n = k).
Proof.
  intros Hps Hn. unfold createParticles.
  rewrite (createParticles_from_spec fuel 0 x0 y0 count s ps n Hn Hps).
  eexists. exists (fst (spawn n (CONFIG s) x0 y0 (host s))).
  split; [reflexivity|]. split; [reflexivity|].
  split; [apply spawn_length|]. split; [apply spawn_fresh|].
  cbn [host set_host]. rewrite spawn_host. cbn.
  repeat match goal with |- _ /\ _ => split end; try reflexivity.
  intros k Hk ->.
  exact (loop_trips_fuel _ _ _ _ _ _ Hn (loop_trips_count k Hk)).
Qed.

(** [createParticles(400, 40, 3)] on the idle engine. *)
Lemma createParticles_appends_witness :
  exists s' burst,
    createParticles 3 400 40 3 initialized_engine = Returned s'
    /\ particles s' = Some ([] ++ burst) /\ List.length burst = 3%nat.
Proof.
  destruct (createParticles_appends 3 400 40 3 initialized_engine [] 3
              eq_refl eq_refl) as (s' & burst & Hrun & Hps & Hlen & _).
  exists s', burst. repeat split; assumption.
Defined.

(** A [count] that is not above 0 (zero, negative, NaN) spawns nothing:
    the call returns the state as it was, whatever it is.  A [count] above
    0 on a module whose [particles] was never assigned throws. *)
Theorem createParticles_edge (fuel : nat) (x0 y0 count : float) (s : State) :
  ((0 <? count) = false -> createParticles fuel x0 y0 count s = Returned s)
  /\ ((0 <? count) = true -> particles s = None ->
      createParticles (S fuel) x0 y0 count s = Thrown "TypeError").
Proof.
  unfold createParticles. split.
  - intros H. destruct fuel; cbn; now rewrite H.
  - intros H Hps. cbn [createParticles_from]. rewrite H.
    unfold push_new_Particle. now rewrite Hps.
Qed.

Lemma createParticles_edge_witness :
  createParticles 10 400 40 (-5) (loaded page_without_canvas)
  = Returned (loaded page_without_canvas)
  /\ createParticles 1 400 40 3 (loaded page_without_canvas) = Thrown "TypeError".
Proof.
  split.
  - apply (proj1 (createParticles_edge 10 400 40 (-5) (loaded page_without_canvas))).
    reflexivity.
  - apply (proj2 (createParticles_edge 0 400 40 3 (loaded page_without_canvas)));
      reflexivity.
Defined.

(** ** The palette *)

Lemma at_floor_In {A : Type} (l : list A) :
  forall (k v : float) (a : A), at_floor l k v = Some a -> In a l.
Proof.
  induction l as [|b l IH]; intros k v a; cbn [at_floor]; [discriminate|].
  destruct ((k <=? v) && (v <? k + 1)).
  - intros [= <-]. now left.
  - intros H. right. exact (IH _ _ _ H).
Qed.

(** The colour and the shape of a constructed particle are entries of
    [CONFIG.colors] and [CONFIG.shapes], or undefined; they are undefined
    when the array is empty.  [draw] fills a disk only for the shape
    ['circle'] and a square of side [size] for anything else. *)
Theorem constructor_picks_from_palette
        (host_trig : Trig float) (cfg : Config) (u : Samples) (x0 y0 : float) :
  let p := new_Particle (H := host_trig) cfg u x0 y0 in
  (forall c, color p = Some c -> In c (colors cfg))
  /\ (forall f, shape p = Some f -> In f (shapes cfg))
  /\ (colors cfg = [] -> color p = None)
  /\ (shapes cfg = [] -> shape p = None)
  /\ (shape p <> Some "circle"%string ->
      figure (paint_of p) = Square (- size p / 2) (size p))
  /\ (shape p = Some "circle"%string -> figure (paint_of p) = Disk (size p / 2)).
Proof.
  cbv zeta. split; [|split; [|split; [|split; [|split]]]].
  - intros c. apply at_floor_In.
  - intros f. apply at_floor_In.
  - cbn [new_Particle color]. now intros ->.
  - cbn [new_Particle shape]. now intros ->.
  - intros Hs. unfold paint_of. cbn [figure].
    destruct (shape _) as [f|]; [|reflexivity].
    destruct (string_dec f "circle") as [->|Hne]; [congruence|].
    destruct f as [|a f]; [reflexivity|].
    repeat match goal with
           | |- context [match ?a with Ascii.Ascii _ _ _ _ _ _ _ _ => _ end] =>
               destruct a
           | |- context [match ?b with true => _ | false => _ end] =>
               destruct b; try reflexivity
           | |- context [match ?f with EmptyString => _ | String _ _ => _ end] =>
               destruct f; try reflexivity
           end; try reflexivity; congruence.
  - intros Hs. unfold paint_of. cbn [figure]. now rewrite Hs.
Qed.

(** ** Survivors of a frame *)

(** A number above 0 is not NaN, and [Math.max(0, l)] is that number. *)
Lemma Math_max_positive (l : float) :
  (0 <? l) = true -> Math_max 0 l = l.
Proof.
  intros Hpos. unfold Math_max. rewrite Hpos.
  replace (PrimFloat.is_nan l) with false; [reflexivity|].
  unfold PrimFloat.is_nan. rewrite FloatAxioms.eqb_spec.
  rewrite FloatAxioms.ltb_spec in Hpos.
  change (Prim2SF 0) with (S754_zero false) in Hpos.
  destruct (Prim2SF l) as [sl| [|] | |[|] ml el]; cbn in Hpos; try discriminate;
    try reflexivity.
  unfold SFeqb, SFcompare. rewrite Z.compare_refl, Pos.compare_refl. reflexivity.
Qed.

Lemma opacity_update (cfg : Config) (p : Particle) :
  opacity (update cfg p) = Math_max 0 (life p - 0.01).
Proof. reflexivity. Qed.

Lemma update_alive (cfg : Config) (c : Canvas) (q : Particle) :
  isAlive c (update cfg q) = true ->
  (0 <? life q - 0.01) = true /\ (y (update cfg q) <? height c + 50) = true.
Proof.
  unfold isAlive. rewrite life_update. intros H.
  apply andb_true_iff in H. exact H.
Qed.

(** After a frame step the collection is no larger than before; every
    particle left in it has [life] above 0, lies above the vertical
    threshold and is painted once with an opacity equal to its [life]. *)
Theorem animate_survivors (s : State) (c : Canvas) (k : Context) (ps : list Particle) :
  canvas s = Some c -> ctx s = Some k -> particles s = Some ps ->
  exists s' kept c',
    animate s = Returned s'
    /\ particles s' = Some kept
    /\ canvas s' = Some c'
    /\ (List.length kept <= List.length ps)%nat
    /\ List.length (painted c') = List.length kept
    /\ (forall p, In p kept ->
          (0 <? life p) = true
          /\ (y p <? height c + 50) = true
          /\ opacity p = life p
          /\ In (paint_of p) (painted c')
          /\ globalAlpha (paint_of p) = life p).
Proof.
  intros Hc Hk Hps.
  pose proof (animate_spec s c k ps Hc Hk Hps) as Ha. cbv zeta in Ha.
  set (kept := filter (isAlive c) (map (update (CONFIG s)) ps)) in *.
  assert (Hkept : forall p, In p kept ->
            (0 <? life p) = true /\ (y p <? height c + 50) = true
            /\ opacity p = life p).
  { intros p Hin. unfold kept in Hin.
    apply filter_In in Hin. destruct Hin as [Hin Hal].
    apply in_map_iff in Hin. destruct Hin as (q & Hp & _).
    rewrite <- Hp in Hal. apply update_alive in Hal. destruct Hal as [Hl Hy].
    rewrite <- Hp, opacity_update, life_update.
    split; [exact Hl|]. split; [exact Hy|]. now apply Math_max_positive. }
  assert (Hlen : (List.length kept <= List.length ps)%nat).
  { unfold kept. rewrite <- (length_map (update (CONFIG s)) ps).
    apply filter_length_le. }
  destruct kept as [|p0 kept0] eqn:Ek;
    (eexists; eexists; eexists; split; [exact Ha|]);
    cbn [particles set_particles set_canvas
         set_isAnimating set_animationId set_host canvas painted].
  - split; [reflexivity|]. split; [reflexivity|]. split; [exact Hlen|].
    split; [reflexivity|]. intros p [].
  - split; [reflexivity|]. split; [reflexivity|]. split; [exact Hlen|].
    split; [cbn [painted]; apply length_map|].
    intros p Hin. destruct (Hkept p Hin) as (Hl & Hy & Ho).
    repeat split; try assumption. now apply in_map.
Qed.

Lemma animate_survivors_witness :
  exists s' kept c',
    animate animating_engine = Returned s'
    /\ particles s' = Some kept
    /\ canvas s' = Some c'
    /\ List.length (painted c') = List.length kept.
Proof.
  destruct (animate_survivors animating_engine _ _ _ eq_refl eq_refl eq_refl)
    as (s' & kept & c' & Hrun & Hps & Hc & _ & Hlen & _).
  exists s', kept, c'. repeat split; assumption.
Defined.

(** ** The engine stays ready *)

Lemma aged_weaken (m m' : nat) (p : Particle) :
  (m' <= m)%nat -> aged m p -> aged m' p.
Proof. intros Hle (k & Hk & Hl). exists k. split; [lia | exact Hl]. Qed.

Lemma ready_weaken (m m' : nat) (s : State) :
  (m' <= m)%nat -> ready m s -> ready m' s.
Proof.
  intros Hle (Ht & c & k & ps & Hc & Hk & Hps & Hall & H1 & H2 & H3).
  split; [exact Ht|]. exists c, k, ps. repeat split; try assumption.
  eapply Forall_impl; [|exact Hall]. intros p. now apply aged_weaken.
Qed.

Lemma aged_survivors (m : nat) (cfg : Config) (c : Canvas) (ps : list Particle) :
  Forall (aged m) ps ->
  Forall (aged (S m)) (filter (isAlive c) (map (update cfg) ps)).
Proof.
  rewrite !Forall_forall. intros Hall p Hin.
  apply filter_In in Hin. destruct Hin as [Hin Hal].
  apply in_map_iff in Hin. destruct Hin as (q & Hp & Hq).
  destruct (Hall q Hq) as (k & Hk & Hl).
  rewrite <- Hp in Hal. apply update_alive in Hal. destruct Hal as [Hpos _].
  rewrite Hl in Hpos.
  assert (Hlife : life p = decayed (S k) 1).
  { rewrite <- Hp, life_update, Hl. reflexivity. }
  exists (S k). split; [|exact Hlife].
  destruct (Nat.eq_dec k 99) as [E|Hne]; [|lia].
  exfalso. rewrite E in Hpos.
  pose proof (proj1 decayed_100) as H100.
  change (decayed 100 1) with (decayed 99 1 - 0.01) in H100.
  rewrite H100 in Hpos. discriminate.
Qed.

Lemma aged_none (m : nat) (ps : list Particle) :
  (100 <= m)%nat -> Forall (aged m) ps -> ps = [].
Proof.
  intros Hm Hall. destruct ps as [|p ps]; [reflexivity|].
  inversion Hall as [|? ? (k & Hk & _) _]. lia.
Qed.

(** A frame step of an engine that is animating with no request pending. *)
Lemma animate_ready (m : nat) (s : State) (c : Canvas) (k : Context)
      (ps : list Particle) :
  (0 < next_handle (host s))%Z ->
  frame_requests (host s) = [] ->
  isAnimating s = Some true ->
  canvas s = Some c -> ctx s = Some k -> particles s = Some ps ->
  Forall (aged m) ps ->
  exists s',
    animate s = Returned s' /\ ready (S m) s'
    /\ timeouts (host s') = timeouts (host s)
    /\ CONFIG s' = CONFIG s.
Proof.
  intros Hnext Hnil Ha Hc Hk Hps Hall.
  pose proof (animate_spec s c k ps Hc Hk Hps) as Hrun. cbv zeta in Hrun.
  pose proof (aged_survivors m (CONFIG s) c ps Hall) as Hkept.
  destruct (filter (isAlive c) (map (update (CONFIG s)) ps)) as [|p0 kept];
    (eexists; split; [exact Hrun|]); (split; [|split; reflexivity]).
  - split; [split; [exact Hnext | now left]|].
    do 3 eexists. cbn. rewrite Hk. repeat split; try reflexivity;
      try congruence; try (intros; discriminate).
  - split.
    + split; cbn; [lia|]. right. exists (next_handle (host s)).
      rewrite Hnil. repeat split; try lia; try reflexivity; assumption.
    + do 3 eexists. cbn. rewrite Hk.
      repeat split; try reflexivity; try exact Hkept; try assumption;
        try (intros; discriminate);
        try (intros;
             match goal with
             | H : _ ++ _ = [] |- _ =>
                 apply app_eq_nil in H; destruct H; discriminate
             end).
      * intros _. exact Ha.
      * intros _ H. apply app_eq_nil in H. destruct H. discriminate.
Qed.

Lemma ready_idle (m : nat) (s : State) :
  ready m s -> truthy_bool (isAnimating s) = false ->
  frame_requests (host s) = [] /\ particles s = Some [].
Proof.
  intros (Ht & c & k & ps & Hc & Hk & Hps & Hall & H1 & H2 & H3) Hidle.
  split; [now apply tracked_idle|].
  destruct ps as [|p ps]; [exact Hps|].
  rewrite H1 in Hidle by discriminate. discriminate.
Qed.

Lemma ready_animating (m : nat) (s : State) :
  ready m s -> truthy_bool (isAnimating s) = true ->
  exists id, frame_requests (host s) = [id] /\ animationId s = Some id
             /\ isAnimating s = Some true.
Proof.
  intros ([Hnext Hfr] & c & k & ps & Hc & Hk & Hps & Hall & H1 & H2 & H3) Ha.
  assert (Hanim : isAnimating s = Some true)
    by (destruct (isAnimating s) as [[|]|]; try discriminate; reflexivity).
  destruct Hfr as [Hnil | (id & _ & Hone & Hid & _)].
  - now destruct (H3 Hanim).
  - exists id. auto.
Qed.

(** [ready] only looks at these. *)
Lemma ready_same (m : nat) (s s' : State) :
  frame_requests (host s') = frame_requests (host s) ->
  next_handle (host s') = next_handle (host s) ->
  animationId s' = animationId s ->
  isAnimating s' = isAnimating s ->
  ctx s' = ctx s ->
  particles s' = particles s ->
  (canvas s = None <-> canvas s' = None) ->
  ready m s -> ready m s'.
Proof.
  intros Hf Hn Hi Ha Hk Hps Hcv (Ht & c & k & ps & Hc & Hk' & Hps' & Hall & H1 & H2 & H3).
  split; [now apply (tracked_same s)|].
  destruct (canvas s') as [c'|] eqn:Hc'.
  - exists c', k, ps. rewrite Hk, Hps, Ha, Hf. repeat split; assumption.
  - destruct Hcv as [_ Hcv]. rewrite Hcv in Hc by reflexivity. discriminate.
Qed.

Lemma stopConfetti_ready (m m' : nat) (s : State) :
  ready m s -> exists s', stopConfetti s = Returned s' /\ ready m' s'
                          /\ timeouts (host s') = timeouts (host s).
Proof.
  intros (Ht & c & k & ps & Hc & Hk & Hps & Hall & H1 & H2 & H3).
  destruct (stopConfetti_returns s)
    as (s' & Hs' & Hp & Hi & _ & Hk' & Hto & _ & _ & Hcv & _).
  exists s'. split; [exact Hs'|]. split; [|exact Hto].
  split; [now apply (tracked_stop s s')|].
  rewrite Hk, Hc in Hcv. cbn in Hcv.
  exists (clearRect c), k, []. rewrite Hk', Hi.
  repeat split; try assumption; try constructor; try congruence; discriminate.
Qed.

Lemma createParticles_from_out_of_fuel (fuel : nat) :
  forall (i x0 y0 count : float) (s : State) (ps : list Particle),
    particles s = Some ps ->
    loop_trips fuel i count = None ->
    createParticles_from fuel i x0 y0 count s = OutOfFuel.
Proof.
  induction fuel as [|fuel IH]; intros i x0 y0 count s ps Hps;
    cbn [loop_trips createParticles_from]; destruct (i <? count);
    try discriminate; try reflexivity.
  destruct (loop_trips fuel _ _) eqn:Hn; [discriminate|]. intros _.
  unfold push_new_Particle. rewrite Hps. cbn [Math_random7 bind].
  eapply IH; [reflexivity | exact Hn].
Qed.

Lemma aged_fresh (n : nat) (cfg : Config) (x0 y0 : float) (h : Host) :
  Forall (aged 0) (fst (spawn n cfg x0 y0 h)).
Proof.
  apply Forall_forall. intros p Hp.
  destruct (spawn_fresh _ _ _ _ _ _ Hp) as (_ & _ & Hl & _).
  exists 0%nat. split; [lia | exact Hl].
Qed.

Lemma triggerConfetti_ready (m fuel : nat) (o : Options.t) (s : State) :
  ready m s ->
  triggerConfetti fuel o s = OutOfFuel
  \/ exists s', triggerConfetti fuel o s = Returned s' /\ ready 0 s'.
Proof.
  intros Hr.
  pose proof Hr as (Ht & c & k & ps & Hc & Hk & Hps & Hall & H1 & H2 & H3).
  destruct (prefers_reduced_motion (host s)) eqn:Hred.
  { right. unfold triggerConfetti. rewrite Hc, Hk, Hred.
    eexists. split; [reflexivity|].
    apply (ready_weaken m); [lia|].
    apply (ready_same m s); try reflexivity; exact Hr. }
  destruct (loop_trips fuel 0 (js_or (Options.count o) (particleCount (CONFIG s))))
    as [n|] eqn:Hn.
  2:{ left. unfold triggerConfetti, createParticles. rewrite Hc, Hk, Hred. cbv zeta.
      now rewrite (createParticles_from_out_of_fuel fuel _ _ _ _ s ps Hps Hn). }
  right.
  destruct (triggerConfetti_spec fuel o s c k ps n Hc Hk Hred Hps Hn)
    as (s2 & Hs2 & Hrun).
  cbv zeta in Hs2.
  set (burst := fst (spawn n (CONFIG s) (js_or (Options.x o) (width c / 2))
                       (js_or (Options.y o) 40) (host s))) in *.
  assert (Hburst : Forall (aged 0) (ps ++ burst)).
  { apply Forall_app. split; [|apply aged_fresh].
    eapply Forall_impl; [|exact Hall]. intros p. apply aged_weaken. lia. }
  eexists. split; [exact Hrun|].
  assert (Hr2 : ready 0 s2).
  { destruct (truthy_bool (isAnimating s)) eqn:Hanim.
    - subst s2.
      destruct (ready_animating m s Hr Hanim) as (id & Hone & Hid & Ha).
      split.
      + apply (tracked_same s); try reflexivity; try exact Ht;
          cbn [host set_host]; rewrite spawn_host; reflexivity.
      + exists c, k, (ps ++ burst).
        cbn [canvas ctx particles isAnimating host set_host set_particles].
        rewrite spawn_host. cbn [frame_requests set_drawn].
        split; [exact Hc|]. split; [exact Hk|]. split; [reflexivity|].
        split; [exact Hburst|]. split; [intros _; exact Ha|]. split.
        * intros _ E. apply app_eq_nil in E. destruct E as [E _].
          now apply (H2 Ha).
        * intros _. rewrite Hone. discriminate.
    - destruct (ready_idle m s Hr Hanim) as [Hnil Hempty].
      match type of Hs2 with animate ?S = _ =>
        destruct (animate_ready 0 S c k (ps ++ burst)) as (s2' & Hs2' & Hr2 & _)
      end; try reflexivity; try assumption.
      + cbn. rewrite spawn_host. cbn. apply Ht.
      + cbn. rewrite spawn_host. cbn. exact Hnil.
      + rewrite Hs2 in Hs2'. injection Hs2' as <-.
        apply (ready_weaken 1); [lia | exact Hr2]. }
  apply (ready_same 0 s2); try reflexivity; exact Hr2.
Qed.

Lemma run_frame_ready (m : nat) (id : Z) (s : State) :
  ready m s ->
  exists s', run_frame id s = Returned s'
             /\ (In id (frame_requests (host s)) -> ready (S m) s')
             /\ (~ In id (frame_requests (host s)) -> s' = s)
             /\ timeouts (host s') = timeouts (host s).
Proof.
  intros Hr.
  pose proof Hr as (Ht & c & k & ps & Hc & Hk & Hps & Hall & H1 & H2 & H3).
  unfold run_frame.
  destruct (in_dec Z.eq_dec id (frame_requests (host s))) as [Hin|Hnin].
  - destruct Ht as [Hnext [Hnil | (id0 & Hid & Hone & _ & Ha)]].
    + now rewrite Hnil in Hin.
    + rewrite Hone in Hin. destruct Hin as [<- | []].
      match goal with |- context [animate ?S] =>
        destruct (animate_ready m S c k ps) as (s' & Hs' & Hr' & Hto & _)
      end; try assumption.
      * cbn. rewrite Hone. cbn. now destruct (Z.eq_dec id0 id0).
      * exists s'. split; [exact Hs'|]. split; [intros _; exact Hr'|].
        split; [|exact Hto].
        intros Hnot. exfalso. apply Hnot. rewrite Hone. now left.
  - exists s. split; [reflexivity|]. split; [contradiction|].
    split; reflexivity.
Qed.

Lemma turn_ready (t : Turn) (s : State) :
  ready 0 s ->
  turn t s = OutOfFuel \/ exists s', turn t s = Returned s' /\ ready 0 s'.
Proof.
  intros Hr. destruct t as [fuel o| |n|id|n|]; cbn [turn].
  - now apply (triggerConfetti_ready 0).
  - right. destruct (stopConfetti_ready 0 0 s Hr) as (s' & Hs' & Hr' & _). eauto.
  - right. eexists. split; [reflexivity|].
    apply (ready_same 0 s); try reflexivity; exact Hr.
  - right. destruct (run_frame_ready 0 id s Hr) as (s' & Hs' & Hin & Hnin & _).
    exists s'. split; [exact Hs'|].
    destruct (in_dec Z.eq_dec id (frame_requests (host s))) as [H|H].
    + apply (ready_weaken 1); [lia | now apply Hin].
    + now rewrite (Hnin H).
  - right. unfold run_timeout.
    destruct (nth_error _ n) as [[[] d]|]; [|eauto].
    cbn [callback run_callback].
    match goal with |- context [stopConfetti ?S] => set (s0 := S) end.
    assert (Hr0 : ready 0 s0).
    { apply (ready_same 0 s); try reflexivity; exact Hr. }
    destruct (truthy_bool (isAnimating s0)); [|eauto].
    destruct (stopConfetti_ready 0 0 s0 Hr0) as (s' & Hs' & Hr' & _). eauto.
  - right. eexists. split; [reflexivity|].
    destruct (resize_listener (host s)); [|exact Hr].
    pose proof Hr as (_ & c & _ & _ & Hc & _).
    apply (ready_same 0 s); try exact Hr;
      unfold resizeCanvas; rewrite Hc; try reflexivity.
    cbn. split; intros; discriminate.
Qed.

Lemma turns_ready (ts : list Turn) :
  forall s, ready 0 s ->
            turns ts s = OutOfFuel
            \/ exists s', turns ts s = Returned s' /\ ready 0 s'.
Proof.
  induction ts as [|t ts IH]; intros s Hr; cbn [turns]; [eauto|].
  destruct (turn_ready t s Hr) as [-> | (s1 & -> & Hr1)]; [now left|].
  cbn [bind]. now apply IH.
Qed.

Lemma initConfetti_ready (s : State) (c : Canvas) (k : Context) :
  document_canvas (host s) = Some c -> getContext c = Some k ->
  frame_requests (host s) = [] -> (0 < next_handle (host s))%Z ->
  exists s0, initConfetti s = Returned s0 /\ ready 0 s0.
Proof.
  intros Hdoc Hctx Hnil Hnext. unfold initConfetti. rewrite Hdoc.
  cbn [canvas set_canvas]. eexists. split; [reflexivity|].
  split; [split; [exact Hnext | now left]|].
  do 3 eexists. cbn. rewrite Hctx.
  repeat split; try reflexivity; try constructor; try congruence; discriminate.
Qed.

Lemma fresh_page_ready (h : Host) :
  fresh_page h -> exists s0, initConfetti (loaded h) = Returned s0 /\ ready 0 s0.
Proof.
  intros ((c & k & Hdoc & Hctx) & Hnil & Hnext).
  now apply (initConfetti_ready (loaded h) c k).
Qed.

Lemma reached_ready (h : Host) (ts : list Turn) (s : State) :
  reached h ts s -> ready 0 s.
Proof.
  intros (Hpage & s0 & Hinit & Hrun).
  destruct (fresh_page_ready h Hpage) as (s0' & Hinit' & Hr0).
  rewrite Hinit in Hinit'. injection Hinit' as <-.
  destruct (turns_ready ts s0 Hr0) as [Hout | (s' & Hs' & Hr)]; [congruence|].
  rewrite Hrun in Hs'. now injection Hs' as <-.
Qed.

Lemma page_with_canvas_fresh : fresh_page page_with_canvas.
Proof.
  split; [|split; [reflexivity|reflexivity]].
  do 2 eexists. split; reflexivity.
Defined.

Lemma two_bursts_reached :
  reached page_with_canvas
    [call_triggerConfetti 150 Options.empty;
     call_triggerConfetti 150 (Options.make None None (Some 3))]
    two_bursts.
Proof.
  split; [exact page_with_canvas_fresh|].
  exists initialized_engine. split; [reflexivity | vm_compute; reflexivity].
Defined.



Lemma decayed_at_most_1 (k : nat) :
  (k <= 99)%nat -> (decayed k 1 <=? 1) = true.
Proof.
  intros Hk.
  assert (Hall : forallb (fun j => decayed j 1 <=? 1) (seq 0 100) = true)
    by (vm_compute; reflexivity).
  rewrite forallb_forall in Hall. apply Hall, in_seq. lia.
Qed.

(** In every state the module reaches after a successful [initConfetti()]:
    the collection is non-empty exactly when [isAnimating] is true, which
    is exactly when one frame request is pending, the one [animationId]
    records; and every particle of the collection has [life] above 0 and
    at most 1. *)
Theorem engine_invariant (h : Host) (ts : list Turn) (s : State) :
  reached h ts s ->
  exists c k ps,
    canvas s = Some c /\ ctx s = Some k /\ particles s = Some ps
    /\ (ps <> [] <-> isAnimating s = Some true)
    /\ (isAnimating s = Some true
        <-> exists id, frame_requests (host s) = [id] /\ animationId s = Some id)
    /\ (isAnimating s <> Some true -> frame_requests (host s) = [])
    /\ (forall p, In p ps -> (0 <? life p) = true /\ (life p <=? 1) = true).
Proof.
  intros Hreach. pose proof (reached_ready h ts s Hreach) as Hr.
  pose proof Hr as (Ht & c & k & ps & Hc & Hk & Hps & Hall & H1 & H2 & H3).
  exists c, k, ps. split; [exact Hc|]. split; [exact Hk|]. split; [exact Hps|].
  split; [split; assumption|]. split; [split|split].
  - intros Ha. destruct (ready_animating 0 s Hr) as (id & Hone & Hid & _).
    + now rewrite Ha.
    + eauto.
  - intros (id & Hone & Hid).
    destruct Ht as [_ [Hnil | (id' & _ & _ & _ & Ha)]]; [congruence | exact Ha].
  - intros Hna. destruct Ht as [_ [Hnil | (id' & _ & _ & _ & Ha)]];
      [exact Hnil | contradiction].
  - intros p Hp. rewrite Forall_forall in Hall.
    destruct (Hall p Hp) as (j & Hj & ->).
    split; [apply decayed_positive | apply decayed_at_most_1]; lia.
Qed.

Lemma engine_invariant_witness :
  exists ps, particles two_bursts = Some ps
             /\ (ps <> [] <-> isAnimating two_bursts = Some true).
Proof.
  destruct (engine_invariant _ _ _ two_bursts_reached)
    as (c & k & ps & _ & _ & Hps & Hiff & _).
  exists ps. split; [exact Hps | exact Hiff].
Defined.

(** ** The animation ends on its own *)

Lemma play_ends (n : nat) :
  forall (m : nat) (s : State),
    ready m s -> (100 <= m + n)%nat ->
    exists s',
      play n s = Returned s'
      /\ particles s' = Some []
      /\ frame_requests (host s') = []
      /\ truthy_bool (isAnimating s') = false
      /\ timeouts (host s') = timeouts (host s).
Proof.
  assert (Hidle : forall m s, ready m s -> frame_requests (host s) = [] ->
            particles s = Some [] /\ truthy_bool (isAnimating s) = false).
  { intros m s Hr Hnil.
    destruct (truthy_bool (isAnimating s)) eqn:Ha.
    - destruct (ready_animating m s Hr Ha) as (id & Hone & _). congruence.
    - split; [apply (ready_idle m s Hr Ha) | reflexivity]. }
  induction n as [|n IH]; intros m s Hr Hle; cbn [play].
  - pose proof Hr as (Ht & c & k & ps & Hc & Hk & Hps & Hall & H1 & H2 & H3).
    assert (ps = []) by (apply (aged_none m); [lia | exact Hall]). subst ps.
    assert (Ha : truthy_bool (isAnimating s) = false).
    { destruct (isAnimating s) as [[|]|]; try reflexivity.
      now destruct (H2 eq_refl). }
    exists s. repeat split; try assumption. apply (ready_idle m s Hr Ha).
  - destruct (frame_requests (host s)) as [|id rest] eqn:Hfr.
    + destruct (Hidle m s Hr Hfr) as [Hps Ha]. exists s. repeat split; assumption.
    + destruct (run_frame_ready m id s Hr) as (s1 & Hs1 & Hin & _ & Hto).
      rewrite Hs1. cbn [bind].
      destruct (IH (S m) s1) as (s' & Hs' & Hps & Hnil & Ha & Hto');
        [apply Hin; rewrite Hfr; now left | lia |].
      exists s'. repeat split; try assumption. now rewrite Hto'.
Qed.

(** From every state the module reaches after a successful
    [initConfetti()], if nothing but the frame callbacks runs, the loop
    stops by itself within 100 frames: the collection is then empty,
    [isAnimating] is false and no frame request is pending.  The timers
    are still pending. *)
Theorem animation_ends (h : Host) (ts : list Turn) (s : State) :
  reached h ts s ->
  exists s',
    play 100 s = Returned s'
    /\ particles s' = Some []
    /\ frame_requests (host s') = []
    /\ isAnimating s' <> Some true
    /\ timeouts (host s') = timeouts (host s).
Proof.
  intros Hreach.
  destruct (play_ends 100 0 s (reached_ready h ts s Hreach)) as
    (s' & Hs' & Hps & Hnil & Ha & Hto); [lia|].
  exists s'. repeat split; try assumption.
  intros E. rewrite E in Ha. discriminate.
Qed.

Lemma animation_ends_witness :
  exists s', play 100 two_bursts = Returned s'
             /\ particles s' = Some []
             /\ List.length (timeouts (host s')) = 2%nat.
Proof.
  destruct (animation_ends _ _ _ two_bursts_reached)
    as (s' & Hs' & Hps & _ & _ & Hto).
  exists s'. split; [exact Hs'|]. split; [exact Hps|]. now rewrite Hto.
Defined.

(** ** Timers outlive a stop *)

Lemma triggerConfetti_timeouts (m fuel : nat) (o : Options.t) (s s' : State) :
  ready m s -> triggerConfetti fuel o s = Returned s' ->
  exists l, timeouts (host s') = timeouts (host s) ++ l.
Proof.
  intros Hr Hrun.
  pose proof Hr as (Ht & c & k & ps & Hc & Hk & Hps & _).
  destruct (prefers_reduced_motion (host s)) eqn:Hred.
  { unfold triggerConfetti in Hrun. rewrite Hc, Hk, Hred in Hrun.
    injection Hrun as <-. exists []. cbn. now rewrite app_nil_r. }
  destruct (loop_trips fuel 0 (js_or (Options.count o) (particleCount (CONFIG s))))
    as [n|] eqn:Hn.
  2:{ unfold triggerConfetti, createParticles in Hrun.
      rewrite Hc, Hk, Hred in Hrun. cbv zeta in Hrun.
      rewrite (createParticles_from_out_of_fuel fuel _ _ _ _ s ps Hps Hn) in Hrun.
      discriminate. }
  destruct (triggerConfetti_spec fuel o s c k ps n Hc Hk Hred Hps Hn)
    as (s2 & Hs2 & Hrun2).
  rewrite Hrun in Hrun2. injection Hrun2 as ->.
  eexists. cbn [host set_host setTimeout set_timeouts timeouts].
  destruct (truthy_bool (isAnimating s)).
  - subst s2. cbn. rewrite spawn_host. reflexivity.
  - destruct (animate_frame_rule _ _ Hs2) as (_ & -> & _).
    cbn. rewrite spawn_host. reflexivity.
Qed.

(** [stopConfetti] cancels no timer.  So a timer set before a stop is
    still pending after the stop and a new [triggerConfetti]; when it
    fires, the collection is empty and the engine idle: the new burst is
    stopped by the old timer. *)
Theorem stale_timer_stops_next_burst
        (h : Host) (ts : list Turn) (s s1 s2 : State)
        (t : Timeout) (fuel : nat) (o : Options.t) :
  reached h ts s ->
  nth_error (timeouts (host s)) 0 = Some t ->
  stopConfetti s = Returned s1 ->
  triggerConfetti fuel o s1 = Returned s2 ->
  timeouts (host s1) = timeouts (host s)
  /\ nth_error (timeouts (host s2)) 0 = Some t
  /\ exists s3,
       run_timeout 0 s2 = Returned s3
       /\ particles s3 = Some []
       /\ isAnimating s3 <> Some true.
Proof.
  intros Hreach Ht Hstop Htrig.
  pose proof (reached_ready h ts s Hreach) as Hr.
  destruct (stopConfetti_ready 0 0 s Hr) as (s1' & Hs1' & Hr1 & Hto1).
  rewrite Hstop in Hs1'. injection Hs1' as <-.
  destruct (triggerConfetti_ready 0 fuel o s1 Hr1) as [Hout | (s2' & Hs2' & Hr2)];
    [congruence|].
  rewrite Htrig in Hs2'. injection Hs2' as <-.
  destruct (triggerConfetti_timeouts 0 fuel o s1 s2 Hr1 Htrig) as (l & Hto2).
  assert (Ht2 : nth_error (timeouts (host s2)) 0 = Some t).
  { rewrite Hto2, Hto1. destruct (timeouts (host s)); [discriminate|exact Ht]. }
  split; [exact Hto1|]. split; [exact Ht2|].
  unfold run_timeout. rewrite Ht2. destruct t as [[] d].
  cbn [callback run_callback].
  match goal with |- context [stopConfetti ?S] => set (s0 := S) end.
  assert (Hr0 : ready 0 s0)
    by (apply (ready_same 0 s2); try reflexivity; exact Hr2).
  destruct (truthy_bool (isAnimating s0)) eqn:Ha.
  - destruct (stopConfetti_returns s0) as (s3 & Hs3 & Hp & Hi & _).
    exists s3. split; [exact Hs3|]. split; [exact Hp|]. rewrite Hi. discriminate.
  - exists s0. split; [reflexivity|].
    split; [apply (ready_idle 0 s0 Hr0 Ha)|].
    intros E. rewrite E in Ha. discriminate.
Qed.

(** Two bursts with their timers; stop; a third burst; the first timer
    fires. *)
Lemma stale_timer_stops_next_burst_witness :
  exists s1 s2 s3,
    stopConfetti two_bursts = Returned s1
    /\ triggerConfetti 150 Options.empty s1 = Returned s2
    /\ particles s2 <> Some []
    /\ run_timeout 0 s2 = Returned s3
    /\ particles s3 = Some [].
Proof.
  set (s1 := returned (stopConfetti two_bursts) two_bursts).
  set (s2 := returned (triggerConfetti 150 Options.empty s1) s1).
  destruct (stale_timer_stops_next_burst _ _ two_bursts s1 s2
              {| callback := auto_stop; delay := 4000 |} 150 Options.empty
              two_bursts_reached) as (_ & _ & s3 & Hs3 & Hps & _);
    try (vm_compute; reflexivity).
  exists s1, s2, s3.
  split; [vm_compute; reflexivity|]. split; [vm_compute; reflexivity|].
  split; [vm_compute; discriminate|]. split; assumption.
Defined.

(** ** Initialization *)

(** When [initConfetti()] finds the canvas it returns with the canvas sized
    to the viewport and blank, [ctx] what [getContext('2d')] answered, an
    empty collection, [isAnimating] false and the resize listener set;
    [CONFIG], [animationId] and what is pending on the host are not
    touched.  Calling it again at once returns the same state. *)
Theorem initConfetti_idempotent (s : State) (c : Canvas) :
  document_canvas (host s) = Some c ->
  exists s1,
    initConfetti s = Returned s1
    /\ canvas s1 = Some {| width := innerWidth (host s);
                           height := innerHeight (host s);
                           painted := [];
                           getContext := getContext c |}
    /\ ctx s1 = getContext c
    /\ particles s1 = Some []
    /\ isAnimating s1 = Some false
    /\ resize_listener (host s1) = true
    /\ CONFIG s1 = CONFIG s /\ animationId s1 = animationId s
    /\ frame_requests (host s1) = frame_requests (host s)
    /\ timeouts (host s1) = timeouts (host s)
    /\ console (host s1) = console (host s)
    /\ initConfetti s1 = Returned s1.
Proof.
  intros Hdoc. destruct s as [cv cx pts aid an cfg h]. cbn in Hdoc.
  unfold initConfetti. cbn [host set_canvas canvas]. rewrite Hdoc.
  eexists. split; [reflexivity|]. cbn.
  repeat match goal with |- _ /\ _ => split end; try reflexivity.
  rewrite Hdoc. reflexivity.
Qed.

Lemma initConfetti_idempotent_witness :
  initConfetti initialized_engine = Returned initialized_engine.
Proof.
  destruct (initConfetti_idempotent (loaded page_with_canvas) _ eq_refl)
    as (s1 & Hs1 & _ & _ & _ & _ & _ & _ & _ & _ & _ & _ & Hagain).
  unfold initialized_engine. rewrite Hs1. exact Hagain.
Defined.

(** ** Resizing *)

(** Once the listener is set, a [resize] of the window gives the canvas the
    size of the viewport and blanks it, without touching the collection;
    the next frame step culls against the new height: it keeps the
    particles whose [life] is above 0 and whose [y], after their update, is
    below [window.innerHeight + 50]. *)
Theorem resize_moves_threshold (s : State) (c : Canvas) (k : Context)
        (ps : list Particle) :
  canvas s = Some c -> ctx s = Some k -> particles s = Some ps ->
  resize_listener (host s) = true ->
  exists s1 s2,
    turn resize s = Returned s1
    /\ particles s1 = Some ps
    /\ isAnimating s1 = isAnimating s
    /\ canvas s1 = Some {| width := innerWidth (host s);
                           height := innerHeight (host s);
                           painted := [];
                           getContext := getContext c |}
    /\ animate s1 = Returned s2
    /\ particles s2
       = Some (filter (fun p => (0 <? life p)
                                && (y p <? innerHeight (host s) + 50))
                      (map (update (CONFIG s)) ps)).
Proof.
  intros Hc Hk Hps Hl. cbn [turn]. rewrite Hl. unfold resizeCanvas. rewrite Hc.
  eexists. eexists. split; [reflexivity|].
  split; [exact Hps|]. split; [reflexivity|]. split; [reflexivity|].
  match goal with |- animate ?S = _ /\ _ =>
    pose proof (animate_spec S _ k ps eq_refl Hk Hps) as Ha
  end.
  cbv zeta in Ha. split; [exact Ha|].
  destruct (filter _ _) eqn:E; cbn; rewrite <- E; reflexivity.
Qed.

Lemma resize_moves_threshold_witness :
  exists s1 s2,
    turn resize animating_engine = Returned s1
    /\ animate s1 = Returned s2
    /\ particles s2 = Some [update default_CONFIG falling_particle].
Proof.
  destruct (resize_moves_threshold animating_engine _ _ _
              eq_refl eq_refl eq_refl eq_refl)
    as (s1 & s2 & Hs1 & _ & _ & _ & Hs2 & Hps).
  exists s1, s2. split; [exact Hs1|]. split; [exact Hs2|]. rewrite Hps.
  vm_compute. reflexivity.
Defined.

(** ** A burst of nothing *)

(** When the count resolves to a number that is not above 0 (a negative
    [count], or no [count] and a [CONFIG.particleCount] of 0) on an idle
    engine, [triggerConfetti] constructs no particle and asks for no random
    value; [animate] still runs once, blanks the canvas, requests no frame
    and leaves [isAnimating] false; and the timer is set all the same. *)
Theorem trigger_of_nothing (fuel : nat) (o : Options.t) (s : State)
        (c : Canvas) (k : Context) :
  canvas s = Some c -> ctx s = Some k -> particles s = Some [] ->
  truthy_bool (isAnimating s) = false ->
  prefers_reduced_motion (host s) = false ->
  (0 <? js_or (Options.count o) (particleCount (CONFIG s))) = false ->
  exists s',
    triggerConfetti fuel o s = Returned s'
    /\ particles s' = Some []
    /\ isAnimating s' = Some false
    /\ canvas s' = Some (clearRect c)
    /\ frame_requests (host s') = frame_requests (host s)
    /\ drawn (host s') = drawn (host s)
    /\ timeouts (host s')
       = timeouts (host s)
         ++ [ {| callback := auto_stop; delay := duration (CONFIG s) |} ].
Proof.
  intros Hc Hk Hps Hidle Hred Hcount.
  destruct (triggerConfetti_spec fuel o s c k [] 0 Hc Hk Hred Hps
              (loop_trips_none fuel 0 _ Hcount)) as (s2 & Hs2 & Hrun).
  rewrite Hidle in Hs2. cbn [spawn fst snd app] in Hs2.
  match type of Hs2 with animate ?S = _ =>
    pose proof (animate_spec S c k [] Hc Hk eq_refl) as Ha
  end.
  cbv zeta in Ha. cbn [map filter] in Ha. rewrite Hs2 in Ha. injection Ha as ->.
  eexists. split; [exact Hrun|]. cbn.
  repeat match goal with |- _ /\ _ => split end; reflexivity.
Qed.

(** [triggerConfetti({ count: -5 })] on the idle engine. *)
Lemma trigger_of_nothing_witness :
  exists s',
    triggerConfetti 0 (Options.make None None (Some (-5))) initialized_engine
    = Returned s'
    /\ particles s' = Some []
    /\ List.length (timeouts (host s')) = 1%nat.
Proof.
  destruct (trigger_of_nothing 0 (Options.make None None (Some (-5)))
              initialized_engine _ _ eq_refl eq_refl eq_refl eq_refl eq_refl eq_refl)
    as (s' & Hrun & Hps & _ & _ & _ & _ & Hto).
  exists s'. split; [exact Hrun|]. split; [exact Hps|]. now rewrite Hto.
Defined.

(** * The slideshow *)

Module SlideshowFacts.
Import Slideshow.
Local Open Scope Z_scope.

Lemma SLIDES_length_5 : SLIDES_length = 5.
Proof. reflexivity. Qed.

(** An index in range is one of the five. *)
Ltac five c H :=
  let E := fresh "E" in
  assert (E : c = 0 \/ c = 1 \/ c = 2 \/ c = 3 \/ c = 4)
    by (rewrite SLIDES_length_5 in H; lia);
  destruct E as [E | [E | [E | [E | E]]]].

(** [updateUI] moves the marks from any slide to the current one. *)
Lemma updateUI_shown (s : State) (cur : Z) (p n : Button) :
  0 <= cur < SLIDES_length ->
  0 <= current s < SLIDES_length ->
  slideshowEl s = Some {| slides := shown_slides cur; tabindex := Some "0"%string |} ->
  indicatorsEl s = Some (shown_indicators cur) ->
  prevBtn s = Some p -> nextBtn s = Some n ->
  updateUI s
  = Returned
      (set_elements
         (Some {| slides := shown_slides (current s); tabindex := Some "0"%string |})
         (Some (shown_indicators (current s)))
         (Some {| disabled := current s =? 0 |})
         (Some {| disabled := current s =? SLIDES_length - 1 |}) s).
Proof.
  intros Hcur Hnew Hsl Hind Hp Hn. unfold updateUI.
  rewrite Hsl, Hind, Hp, Hn. cbn [slides tabindex].
  five cur Hcur; five (current s) Hnew; rewrite E, E0; reflexivity.
Qed.

Lemma shows_set_elements (s : State) :
  shows s ->
  set_elements (slideshowEl s) (indicatorsEl s) (prevBtn s) (nextBtn s) s = s.
Proof. intros _. now destruct s. Qed.

Lemma goTo_shows (index : Z) (s : State) :
  shows s ->
  exists s',
    goTo index s = Returned s'
    /\ shows s'
    /\ current s' = clamp index
    /\ (clamp index = current s -> s' = s)
    /\ intervals s' = intervals s.
Proof.
  intros (Hcur & Hsl & Hind & Hp & Hn & Hpl & Hnl & Hkl & Hiv).
  unfold goTo.
  set (i1 := if index <? 0 then 0 else index).
  set (i2 := if i1 >=? SLIDES_length then SLIDES_length - 1 else i1).
  assert (Hi2 : i2 = clamp index).
  { unfold i2, i1, clamp. rewrite SLIDES_length_5 in *.
    destruct (Z.ltb_spec index 0); destruct (Z.geb_spec 0 5);
      destruct (Z.geb_spec index 5); lia. }
  assert (Hrange : 0 <= i2 < SLIDES_length).
  { rewrite Hi2. unfold clamp. rewrite SLIDES_length_5. lia. }
  clearbody i2. clear i1.
  destruct (Z.eqb_spec i2 (current s)) as [Heq | Hne].
  - exists s. split; [reflexivity|]. split; [unfold shows; tauto|].
    split; [congruence|]. split; reflexivity.
  - rewrite (updateUI_shown (set_current i2 s) (current s) _ _ Hcur Hrange
               Hsl Hind Hp Hn).
    eexists. split; [reflexivity|]. cbn.
    split; [unfold shows; cbn; tauto|].
    split; [exact Hi2|]. split; [congruence | reflexivity].
Qed.

Lemma run_listeners_once (f : State -> Outcome State) (s : State) :
  run_listeners 1 f s = let* s1 := f s in Returned s1.
Proof. reflexivity. Qed.

Lemma dispatch_shows (e : Event) (s : State) :
  shows s ->
  exists s', dispatch e s = Returned s' /\ shows s'
             /\ intervals s' = intervals s.
Proof.
  intros Hs.
  pose proof Hs as (Hcur & Hsl & Hind & Hp & Hn & Hpl & Hnl & Hkl & Hiv).
  destruct e as [| |n|key|]; cbn [dispatch].
  - rewrite Hp. cbn [disabled]. destruct (current s =? 0); [eauto|].
    rewrite Hpl, run_listeners_once.
    destruct (goTo_shows (current s - 1) s Hs) as (s' & -> & Hs' & _ & _ & Hi).
    cbn. eauto.
  - rewrite Hn. cbn [disabled]. destruct (current s =? SLIDES_length - 1); [eauto|].
    rewrite Hnl, run_listeners_once.
    destruct (goTo_shows (current s + 1) s Hs) as (s' & -> & Hs' & _ & _ & Hi).
    cbn. eauto.
  - rewrite Hind. destruct (nth_error _ n) as [el|]; [|eauto].
    destruct (goes_to el) as [index|]; [|eauto].
    destruct (goTo_shows index s Hs) as (s' & -> & Hs' & _ & _ & Hi). eauto.
  - rewrite Hkl, run_listeners_once. unfold on_keydown.
    destruct (String.eqb key "ArrowLeft").
    + destruct (goTo_shows (current s - 1) s Hs) as (s1 & -> & Hs1 & _ & _ & Hi1).
      cbn [bind]. destruct (String.eqb key "ArrowRight").
      * destruct (goTo_shows (current s1 + 1) s1 Hs1) as (s2 & -> & Hs2 & _ & _ & Hi2).
        cbn. exists s2. split; [reflexivity|]. split; [exact Hs2 | congruence].
      * cbn. eauto.
    + cbn [bind]. destruct (String.eqb key "ArrowRight").
      * destruct (goTo_shows (current s + 1) s Hs) as (s2 & -> & Hs2 & _ & _ & Hi2).
        cbn. eauto.
      * cbn. eauto.
  - destruct (intervals s) as [|d [|d' rest]] eqn:Eiv; cbn in Hiv; try lia.
    + cbn. exists s. split; [reflexivity|]. split; [exact Hs | exact Eiv].
    + cbn [List.length]. rewrite run_listeners_once.
      destruct (goTo_shows (current s + 1) s Hs) as (s' & -> & Hs' & _ & _ & Hi).
      cbn. exists s'. split; [reflexivity|]. split; [exact Hs' | congruence].
Qed.

Lemma dispatch_all_shows (es : list Event) :
  forall s, shows s ->
            exists s', dispatch_all es s = Returned s' /\ shows s'
                       /\ intervals s' = intervals s.
Proof.
  induction es as [|e es IH]; intros s Hs; cbn [dispatch_all]; [eauto|].
  destruct (dispatch_shows e s Hs) as (s1 & -> & Hs1 & Hi1). cbn [bind].
  destruct (IH s1 Hs1) as (s' & Hs' & Hshows & Hi). exists s'.
  split; [exact Hs'|]. split; [exact Hshows | congruence].
Qed.

Lemma initSlideshow_shows (p : Page) (reduced : bool)
      (sl : SlideshowEl) (ind : list IndicatorEl) (b1 b2 : Button) :
  page_slideshow p = Some sl -> page_indicators p = Some ind ->
  page_prev p = Some b1 -> page_next p = Some b2 ->
  exists s,
    initSlideshow (loaded p reduced) = Returned s
    /\ shows s /\ current s = 0
    /\ intervals s = (if reduced then [] else [6000])
    /\ console s = [].
Proof.
  intros H1 H2 H3 H4. unfold initSlideshow. cbn [document loaded].
  rewrite H1, H2, H3, H4. cbn.
  destruct reduced; eexists; (split; [reflexivity|]); cbn;
    (split; [|split; [reflexivity|split; reflexivity]]);
    unfold shows; cbn; repeat split; try reflexivity; try lia; discriminate.
Qed.


Lemma shown_slides_marks (cur : Z) (i : nat) (el : SlideEl) :
  0 <= cur < SLIDES_length ->
  nth_error (shown_slides cur) i = Some el ->
  (contains "active" (classList el) = true <-> Z.of_nat i = cur)
  /\ contains "slide" (classList el) = true.
Proof.
  intros Hcur Hnth.
  do 5 (destruct i as [|i]; [five cur Hcur; subst cur; vm_compute in Hnth;
                             injection Hnth as <-; vm_compute;
                             (split; [split; intros; (discriminate || reflexivity)
                                     | reflexivity])|]).
  five cur Hcur; subst cur; destruct i; discriminate.
Qed.

Lemma shown_indicators_marks (cur : Z) (i : nat) (el : IndicatorEl) :
  0 <= cur < SLIDES_length ->
  nth_error (shown_indicators cur) i = Some el ->
  (contains "active" (indicator_classList el) = true <-> Z.of_nat i = cur)
  /\ getAttribute "aria-selected" (indicator_attributes el)
     = Some (if Z.of_nat i =? cur then "true"%string else "false"%string)
  /\ goes_to el = Some (Z.of_nat i).
Proof.
  intros Hcur Hnth.
  do 5 (destruct i as [|i]; [five cur Hcur; subst cur; vm_compute in Hnth;
                             injection Hnth as <-; vm_compute;
                             (split; [split; intros; (discriminate || reflexivity)
                                     | split; reflexivity])|]).
  five cur Hcur; subst cur; destruct i; discriminate.
Qed.

Lemma shown_lengths (cur : Z) :
  List.length (shown_slides cur) = 5%nat
  /\ List.length (shown_indicators cur) = 5%nat.
Proof. split; reflexivity. Qed.

(** After [initSlideshow()] has found its four elements, whatever the user
    and the intervals do, no listener throws, and: [current] is the index
    of one of the five slides; there are five slides and five indicators;
    the slide at [current], and no other, carries the class [active]; so
    does its indicator, whose [aria-selected] is ['true'] while that of the
    others is ['false']; the previous button is disabled exactly on the
    first slide and the next button exactly on the last. *)
Theorem slideshow_marks_current (p : Page) (reduced : bool) (es : list Event)
        (sl : SlideshowEl) (ind : list IndicatorEl) (b1 b2 : Button) :
  page_slideshow p = Some sl -> page_indicators p = Some ind ->
  page_prev p = Some b1 -> page_next p = Some b2 ->
  exists s0 s els inds,
    initSlideshow (loaded p reduced) = Returned s0
    /\ dispatch_all es s0 = Returned s
    /\ 0 <= current s < 5
    /\ slideshowEl s = Some {| slides := els; tabindex := Some "0"%string |}
    /\ indicatorsEl s = Some inds
    /\ List.length els = 5%nat /\ List.length inds = 5%nat
    /\ (forall i el, nth_error els i = Some el ->
          (contains "active" (classList el) = true <-> Z.of_nat i = current s))
    /\ (forall i el, nth_error inds i = Some el ->
          (contains "active" (indicator_classList el) = true
           <-> Z.of_nat i = current s)
          /\ getAttribute "aria-selected" (indicator_attributes el)
             = Some (if Z.of_nat i =? current s
                     then "true"%string else "false"%string))
    /\ prevBtn s = Some {| disabled := current s =? 0 |}
    /\ nextBtn s = Some {| disabled := current s =? 4 |}.
Proof.
  intros H1 H2 H3 H4.
  destruct (initSlideshow_shows p reduced sl ind b1 b2 H1 H2 H3 H4)
    as (s0 & Hinit & Hs0 & _).
  destruct (dispatch_all_shows es s0 Hs0) as (s & Hrun & Hs & _).
  pose proof Hs as (Hcur & Hsl & Hind & Hp & Hn & _).
  exists s0, s, (shown_slides (current s)), (shown_indicators (current s)).
  split; [exact Hinit|]. split; [exact Hrun|]. split; [exact Hcur|].
  split; [exact Hsl|]. split; [exact Hind|].
  split; [reflexivity|]. split; [reflexivity|].
  split; [|split; [|split; [exact Hp | exact Hn]]].
  - intros i el Hnth. now apply (shown_slides_marks (current s) i el Hcur).
  - intros i el Hnth.
    destruct (shown_indicators_marks (current s) i el Hcur Hnth) as (Ha & Hsel & _).
    split; assumption.
Qed.

Lemma slideshow_marks_current_witness :
  exists s,
    (let* s0 := initSlideshow (loaded full_page false) in
     dispatch_all [click_next; tick; keydown "ArrowLeft"; click_indicator 3] s0)
    = Returned s
    /\ 0 <= current s < 5.
Proof.
  destruct (slideshow_marks_current full_page false
              [click_next; tick; keydown "ArrowLeft"; click_indicator 3]
              _ _ _ _ eq_refl eq_refl eq_refl eq_refl)
    as (s0 & s & els & inds & Hinit & Hrun & Hcur & _).
  exists s. rewrite Hinit. cbn [bind]. split; [exact Hrun | exact Hcur].
Defined.


Lemma displayed_shows (p : Page) (reduced : bool) (es : list Event) (s : State) :
  displayed p reduced es s ->
  shows s /\ intervals s = (if reduced then [] else [6000]).
Proof.
  intros ((sl & ind & b1 & b2 & H1 & H2 & H3 & H4) & s0 & Hinit & Hrun).
  destruct (initSlideshow_shows p reduced sl ind b1 b2 H1 H2 H3 H4)
    as (s0' & Hinit' & Hs0 & _ & Hi0 & _).
  rewrite Hinit in Hinit'. injection Hinit' as <-.
  destruct (dispatch_all_shows es s0 Hs0) as (s' & Hrun' & Hs & Hi).
  rewrite Hrun in Hrun'. injection Hrun' as <-.
  split; [exact Hs | congruence].
Qed.

Lemma full_page_displayed :
  displayed full_page false [click_next; click_next; click_next; click_next]
    on_last_slide.
Proof.
  split.
  - do 4 eexists. repeat split; reflexivity.
  - eexists. split; vm_compute; reflexivity.
Defined.

Lemma clamp_next (c : Z) : 0 <= c < 5 -> clamp (c + 1) = Z.min (c + 1) 4.
Proof. unfold clamp. rewrite SLIDES_length_5. lia. Qed.

Lemma clamp_prev (c : Z) : 0 <= c < 5 -> clamp (c - 1) = Z.max (c - 1) 0.
Proof. unfold clamp. rewrite SLIDES_length_5. lia. Qed.

Lemma goTo_next (s : State) :
  shows s ->
  exists s', goTo (current s + 1) s = Returned s'
             /\ shows s'
             /\ current s' = Z.min (current s + 1) 4
             /\ (current s = 4 -> s' = s)
             /\ intervals s' = intervals s.
Proof.
  intros Hs. pose proof Hs as (Hcur & _). rewrite SLIDES_length_5 in Hcur.
  destruct (goTo_shows (current s + 1) s Hs) as (s' & Hrun & Hs' & Hc & Hsame & Hi).
  rewrite clamp_next in Hc, Hsame by exact Hcur.
  exists s'. split; [exact Hrun|]. split; [exact Hs'|]. split; [exact Hc|].
  split; [|exact Hi]. intros H4. apply Hsame. lia.
Qed.

Lemma goTo_prev (s : State) :
  shows s ->
  exists s', goTo (current s - 1) s = Returned s'
             /\ shows s'
             /\ current s' = Z.max (current s - 1) 0
             /\ (current s = 0 -> s' = s).
Proof.
  intros Hs. pose proof Hs as (Hcur & _). rewrite SLIDES_length_5 in Hcur.
  destruct (goTo_shows (current s - 1) s Hs) as (s' & Hrun & Hs' & Hc & Hsame & _).
  rewrite clamp_prev in Hc, Hsame by exact Hcur.
  exists s'. split; [exact Hrun|]. split; [exact Hs'|]. split; [exact Hc|].
  intros H0. apply Hsame. lia.
Qed.

(** Navigation, in every state of the slideshow: the next button and the
    right arrow key show the next slide, the previous button and the left
    arrow key the previous one, an indicator its own slide, any other key
    nothing; there is no wrapping around: on the last slide next, right
    arrow and the interval leave everything as it is, and so do previous
    and left arrow on the first slide. *)
Theorem slideshow_navigation (p : Page) (reduced : bool) (es : list Event)
        (s : State) :
  displayed p reduced es s ->
  (exists s', dispatch click_next s = Returned s'
              /\ current s' = Z.min (current s + 1) 4)
  /\ (exists s', dispatch click_prev s = Returned s'
                 /\ current s' = Z.max (current s - 1) 0)
  /\ (exists s', dispatch (keydown "ArrowRight") s = Returned s'
                 /\ current s' = Z.min (current s + 1) 4)
  /\ (exists s', dispatch (keydown "ArrowLeft") s = Returned s'
                 /\ current s' = Z.max (current s - 1) 0)
  /\ (forall n, (n < 5)%nat ->
        exists s', dispatch (click_indicator n) s = Returned s'
                   /\ current s' = Z.of_nat n)
  /\ (forall key, key <> "ArrowLeft"%string -> key <> "ArrowRight"%string ->
        dispatch (keydown key) s = Returned s)
  /\ (current s = 4 ->
      dispatch click_next s = Returned s
      /\ dispatch (keydown "ArrowRight") s = Returned s
      /\ dispatch tick s = Returned s)
  /\ (current s = 0 ->
      dispatch click_prev s = Returned s
      /\ dispatch (keydown "ArrowLeft") s = Returned s).
Proof.
  intros Hd. destruct (displayed_shows p reduced es s Hd) as [Hs Hiv].
  pose proof Hs as (Hcur & Hsl & Hind & Hp & Hn & Hpl & Hnl & Hkl & Hlen).
  rewrite SLIDES_length_5 in Hcur.
  destruct (goTo_next s Hs) as (sn & Hgn & _ & Hcn & Hsn & _).
  destruct (goTo_prev s Hs) as (sp & Hgp & _ & Hcp & Hsp).
  assert (Hnext : exists s', dispatch click_next s = Returned s'
             /\ current s' = Z.min (current s + 1) 4
             /\ (current s = 4 -> s' = s)).
  { cbn [dispatch]. rewrite Hn. cbn [disabled]. rewrite SLIDES_length_5.
    destruct (Z.eqb_spec (current s) (5 - 1)).
    - exists s. repeat split; try reflexivity. lia.
    - rewrite Hnl, run_listeners_once, Hgn. cbn. eauto. }
  assert (Hprev : exists s', dispatch click_prev s = Returned s'
             /\ current s' = Z.max (current s - 1) 0
             /\ (current s = 0 -> s' = s)).
  { cbn [dispatch]. rewrite Hp. cbn [disabled].
    destruct (Z.eqb_spec (current s) 0).
    - exists s. repeat split; try reflexivity. lia.
    - rewrite Hpl, run_listeners_once, Hgp. cbn. eauto. }
  assert (Hright : dispatch (keydown "ArrowRight") s = Returned sn).
  { cbn [dispatch]. rewrite Hkl, run_listeners_once. unfold on_keydown.
    cbn [String.eqb Ascii.eqb Bool.eqb bind]. now rewrite Hgn. }
  assert (Hleft : dispatch (keydown "ArrowLeft") s = Returned sp).
  { cbn [dispatch]. rewrite Hkl, run_listeners_once. unfold on_keydown.
    cbn [String.eqb Ascii.eqb Bool.eqb bind]. now rewrite Hgp. }
  split; [destruct Hnext as (s' & H1 & H2 & _); eauto|].
  split; [destruct Hprev as (s' & H1 & H2 & _); eauto|].
  split; [eauto|]. split; [eauto|].
  split; [|split; [|split]].
  - intros n Hlt. cbn [dispatch]. rewrite Hind.
    destruct (nth_error (shown_indicators (current s)) n) as [el|] eqn:Hnth.
    + destruct (shown_indicators_marks (current s) n el) as (_ & _ & ->);
        [rewrite SLIDES_length_5; exact Hcur | exact Hnth |].
      destruct (goTo_shows (Z.of_nat n) s Hs) as (s' & -> & _ & Hc & _).
      exists s'. split; [reflexivity|]. rewrite Hc. unfold clamp.
      rewrite SLIDES_length_5. lia.
    + apply nth_error_None in Hnth.
      rewrite (proj2 (shown_lengths (current s))) in Hnth. lia.
  - intros key Hl Hr. cbn [dispatch]. rewrite Hkl, run_listeners_once.
    unfold on_keydown.
    destruct (String.eqb_spec key "ArrowLeft"); [contradiction|].
    destruct (String.eqb_spec key "ArrowRight"); [contradiction|]. reflexivity.
  - intros H4. destruct Hnext as (s' & H1 & _ & Hsame).
    rewrite (Hsame H4) in H1. split; [exact H1|].
    split; [now rewrite Hright, (Hsn H4)|].
    cbn [dispatch]. destruct reduced; rewrite Hiv; cbn; [reflexivity|].
    now rewrite Hgn, (Hsn H4).
  - intros H0. destruct Hprev as (s' & H1 & _ & Hsame).
    rewrite (Hsame H0) in H1. split; [exact H1|].
    now rewrite Hleft, (Hsp H0).
Qed.

(** Four clicks on next from the first slide, then one more. *)
Lemma slideshow_navigation_witness :
  exists s s',
    (let* s0 := initSlideshow (loaded full_page false) in
     dispatch_all [click_next; click_next; click_next; click_next] s0) = Returned s
    /\ current s = 4
    /\ dispatch click_next s = Returned s'
    /\ current s' = 4.
Proof.
  destruct (slideshow_navigation _ _ _ _ full_page_displayed)
    as ((s' & Hnext & Hc) & _).
  exists on_last_slide, s'. split; [vm_compute; reflexivity|].
  split; [vm_compute; reflexivity|]. split; [exact Hnext|].
  rewrite Hc. vm_compute. reflexivity.
Defined.

(** ** Autoplay *)

Lemma ticks_advance (n : nat) :
  forall s, shows s -> intervals s = [6000] ->
            exists s', dispatch_all (ticks n) s = Returned s'
                       /\ current s' = Z.min (current s + Z.of_nat n) 4.
Proof.
  induction n as [|n IH]; intros s Hs Hiv.
  - exists s. split; [reflexivity|].
    destruct Hs as (Hcur & _). rewrite SLIDES_length_5 in Hcur. lia.
  - cbn [ticks repeat dispatch_all dispatch]. rewrite Hiv. cbn [List.length].
    rewrite run_listeners_once.
    destruct (goTo_next s Hs) as (s1 & -> & Hs1 & Hc1 & _ & Hi1).
    cbn [bind].
    destruct (IH s1 Hs1) as (s' & Hrun & Hc); [congruence|].
    exists s'. split; [exact Hrun|]. rewrite Hc, Hc1.
    destruct Hs as (Hcur & _). rewrite SLIDES_length_5 in Hcur. lia.
Qed.

Lemma ticks_idle (n : nat) (s : State) :
  intervals s = [] -> dispatch_all (ticks n) s = Returned s.
Proof.
  intros Hiv. induction n as [|n IH]; [reflexivity|].
  cbn [ticks repeat dispatch_all dispatch]. rewrite Hiv. cbn. exact IH.
Qed.

(** Left alone, the slideshow advances by one slide per tick of its one
    interval of 6000 ms, and stays on the last slide once it is there:
    after [n] ticks it shows slide [min n 4].  When the host reports the
    reduced-motion preference at [initSlideshow()], no interval is set and
    the first slide stays. *)
Theorem slideshow_autoplay (p : Page) (n : nat)
        (sl : SlideshowEl) (ind : list IndicatorEl) (b1 b2 : Button) :
  page_slideshow p = Some sl -> page_indicators p = Some ind ->
  page_prev p = Some b1 -> page_next p = Some b2 ->
  (exists s0 s,
      initSlideshow (loaded p false) = Returned s0
      /\ intervals s0 = [6000]
      /\ dispatch_all (ticks n) s0 = Returned s
      /\ current s = Z.min (Z.of_nat n) 4)
  /\ (exists s0,
        initSlideshow (loaded p true) = Returned s0
        /\ intervals s0 = []
        /\ current s0 = 0
        /\ dispatch_all (ticks n) s0 = Returned s0).
Proof.
  intros H1 H2 H3 H4. split.
  - destruct (initSlideshow_shows p false sl ind b1 b2 H1 H2 H3 H4)
      as (s0 & Hinit & Hs0 & Hc0 & Hi0 & _).
    destruct (ticks_advance n s0 Hs0 Hi0) as (s & Hrun & Hc).
    exists s0, s. repeat split; try assumption. rewrite Hc, Hc0. reflexivity.
  - destruct (initSlideshow_shows p true sl ind b1 b2 H1 H2 H3 H4)
      as (s0 & Hinit & Hs0 & Hc0 & Hi0 & _).
    exists s0. repeat split; try assumption. now apply ticks_idle.
Qed.

Lemma slideshow_autoplay_witness :
  exists s0 s,
    initSlideshow (loaded full_page false) = Returned s0
    /\ dispatch_all (ticks 7) s0 = Returned s
    /\ current s = 4.
Proof.
  destruct (slideshow_autoplay full_page 7 _ _ _ _ eq_refl eq_refl eq_refl eq_refl)
    as ((s0 & s & Hinit & _ & Hrun & Hc) & _).
  exists s0, s. repeat split; assumption.
Defined.

(** ** Missing elements *)

Lemma dispatch_quiet (e : Event) (s : State) :
  prev_listeners s = 0%nat -> next_listeners s = 0%nat ->
  keydown_listeners s = 0%nat -> intervals s = [] ->
  (forall ind, indicatorsEl s = Some ind ->
               Forall (fun el => goes_to el = None) ind) ->
  dispatch e s = Returned s.
Proof.
  intros Hp Hn Hk Hi Hind. destruct e as [| |n|key|]; cbn [dispatch].
  - rewrite Hp. destruct (prevBtn s) as [[[|]]|]; reflexivity.
  - rewrite Hn. destruct (nextBtn s) as [[[|]]|]; reflexivity.
  - destruct (indicatorsEl s) as [ind|]; [|reflexivity].
    destruct (nth_error ind n) as [el|] eqn:Hnth; [|reflexivity].
    specialize (Hind ind eq_refl). rewrite Forall_forall in Hind.
    now rewrite (Hind el (nth_error_In _ _ Hnth)).
  - now rewrite Hk.
  - now rewrite Hi.
Qed.

(** When one of the four elements is not on the page, [initSlideshow()]
    only warns: it renders nothing, registers no listener and sets no
    interval, and afterwards no click, key or tick changes anything. *)
Theorem slideshow_without_elements (p : Page) (reduced : bool) (es : list Event) :
  page_slideshow p = None \/ page_indicators p = None
  \/ page_prev p = None \/ page_next p = None ->
  (forall ind, page_indicators p = Some ind ->
               Forall (fun el => goes_to el = None) ind) ->
  exists s0,
    initSlideshow (loaded p reduced) = Returned s0
    /\ console s0 = ["Slideshow elements not found"%string]
    /\ slideshowEl s0 = page_slideshow p
    /\ indicatorsEl s0 = page_indicators p
    /\ prev_listeners s0 = 0%nat /\ next_listeners s0 = 0%nat
    /\ keydown_listeners s0 = 0%nat /\ intervals s0 = []
    /\ current s0 = 0
    /\ dispatch_all es s0 = Returned s0.
Proof.
  intros Hmissing Hind.
  assert (Hinit : exists s0,
    initSlideshow (loaded p reduced) = Returned s0
    /\ console s0 = ["Slideshow elements not found"%string]
    /\ slideshowEl s0 = page_slideshow p
    /\ indicatorsEl s0 = page_indicators p
    /\ prev_listeners s0 = 0%nat /\ next_listeners s0 = 0%nat
    /\ keydown_listeners s0 = 0%nat /\ intervals s0 = []
    /\ current s0 = 0).
  { unfold initSlideshow. cbn [document loaded].
    destruct (page_slideshow p), (page_indicators p), (page_prev p), (page_next p);
      cbn; try (eexists; repeat split; reflexivity).
    destruct Hmissing as [H | [H | [H | H]]]; discriminate. }
  destruct Hinit as (s0 & Hrun & Hcons & Hsl & Hi & Hpl & Hnl & Hkl & Hiv & Hcur).
  exists s0. repeat split; try assumption.
  induction es as [|e es IH]; [reflexivity|].
  assert (Hq : dispatch e s0 = Returned s0).
  { apply dispatch_quiet; try assumption. intros ind. rewrite Hi. apply Hind. }
  cbn [dispatch_all]. rewrite Hq. cbn [bind]. exact IH.
Qed.

Lemma slideshow_without_elements_witness :
  exists s0,
    initSlideshow (loaded page_without_prev false) = Returned s0
    /\ dispatch_all [click_next; tick; keydown "ArrowRight"] s0 = Returned s0.
Proof.
  destruct (slideshow_without_elements page_without_prev false
              [click_next; tick; keydown "ArrowRight"])
    as (s0 & Hinit & _ & _ & _ & _ & _ & _ & _ & _ & Hrun).
  - right. right. left. reflexivity.
  - intros ind [= <-]. constructor.
  - exists s0. split; assumption.
Defined.

End SlideshowFacts.
